(** * World Fraud Engine: a shallow embedding of [s.py]

    The program scores one card transaction at a time, may ask the card
    holder to verify their identity, and keeps two counters that freeze the
    card.  This file embeds its risk factors, the behavioural analysis, the
    tiered verification and the session loop, and proves properties of them.

    Conventions of the embedding:
    - a Python [float] is a primitive binary64 float, with the comparisons and
      the arithmetic of IEEE 754 (a comparison with a NaN is false);
    - a Python [int] is a [Z];
    - a line read by [input] is a [string] of ASCII characters;
    - a naive [datetime] is the number of microseconds since the start of a
      day, as a [Z]: [hour] and the difference of two readings are exact;
    - [input], [print] and [datetime.now] act on an explicit [world]; reading
      past the end of the input raises [EOFError];
    - the texts that are printed or collected as reasons are constructors of
      [reason] and [message] that carry the values the text is formatted from. *)

From Stdlib Require Import Floats ZArith List String Ascii Bool Lia.
Import ListNotations.

Set Warnings "-inexact-float".

(** ** Floats as Python compares them *)

Notation "x >? y" := (PrimFloat.ltb y x) (at level 70, no associativity) : float_scope.
Notation "x >=? y" := (PrimFloat.leb y x) (at level 70, no associativity) : float_scope.

(** [float(z)] for an integer [z]: the nearest binary64 value. *)
Definition float_of_Z (z : Z) : float :=
  SF2Prim (binary_normalize prec emax z 0 false).

(** [min(a, b)] of two arguments: [a], unless [b < a]. *)
Definition py_min (a b : float) : float :=
  if (b <? a)%float then b else a.

(** ** Strings as Python transforms them *)

Definition is_upper (c : ascii) : bool :=
  let n := nat_of_ascii c in Nat.leb 65 n && Nat.leb n 90.

Definition lower_char (c : ascii) : ascii :=
  if is_upper c then ascii_of_nat (nat_of_ascii c + 32) else c.

(** [s.lower()] *)
Fixpoint lower (s : string) : string :=
  match s with
  | EmptyString => EmptyString
  | String c s' => String (lower_char c) (lower s')
  end.

(** The ASCII characters [str.isspace] accepts. *)
Definition is_space (c : ascii) : bool :=
  let n := nat_of_ascii c in
  (Nat.leb 9 n && Nat.leb n 13) || (Nat.leb 28 n && Nat.leb n 32).

Fixpoint lstrip (s : string) : string :=
  match s with
  | EmptyString => EmptyString
  | String c s' => if is_space c then lstrip s' else s
  end.

Fixpoint rstrip (s : string) : string :=
  match s with
  | EmptyString => EmptyString
  | String c s' =>
      match rstrip s' with
      | EmptyString => if is_space c then EmptyString else String c EmptyString
      | r => String c r
      end
  end.

(** [s.strip()] *)
Definition strip (s : string) : string := rstrip (lstrip s).

(** [s.split(sep)] for a separator of one character. *)
Fixpoint split (sep : ascii) (s : string) : list string :=
  match s with
  | EmptyString => [EmptyString]
  | String c s' =>
      if Ascii.eqb c sep then EmptyString :: split sep s'
      else match split sep s' with
           | p :: ps => String c p :: ps
           | [] => [String c EmptyString]
           end
  end.

(** [x or "unknown"], for [x] a string or [None]: the empty string is falsy. *)
Definition or_unknown (x : option string) : string :=
  match x with
  | Some r => if String.eqb r "" then "unknown"%string else r
  | None => "unknown"%string
  end.

(** [d.get(k)] on a dictionary kept as its list of items. *)
Fixpoint dict_get {V : Type} (d : list (string * V)) (k : string) : option V :=
  match d with
  | [] => None
  | (k', v) :: d' => if String.eqb k k' then Some v else dict_get d' k
  end.

(** ** Constants of the module *)

Definition CORRECT_PIN : string := "1234".
Definition SIM_LAST_NAME : string := "Wahdan".
Definition SIM_DOB : string := "1990-05-14".
Definition SIM_CVV : string := "123".

Definition ALBERTA_CITIES : list string :=
  [ "calgary"; "edmonton"; "red deer"; "lethbridge"; "medicine hat";
    "airdrie"; "st. albert"; "fort mcmurray"; "grand prairie"; "okotoks";
    "cochrane"; "spruce grove"; "camrose"; "brooks"; "banff"; "canmore" ]%string.

Definition MERCHANT_RISK : list (string * (string * float)) :=
  [ ("1", ("Groceries / Essentials", 0.00%float));
    ("2", ("Restaurants / Food", 0.05%float));
    ("3", ("Electronics / Tech", 0.10%float));
    ("4", ("Travel / Airline / Hotel", 0.15%float));
    ("5", ("Online / E-commerce / Marketplace", 0.20%float));
    ("6", ("Gift Cards / Crypto / Reloadables", 0.30%float));
    ("7", ("Other / Misc", 0.05%float)) ]%string.

(** [MERCHANT_RISK["7"]] *)
Definition MERCHANT_OTHER : string * float := ("Other / Misc"%string, 0.05%float).

(** ** Data *)

(** An item of [spending_history]. *)
Record history_entry := {
  h_amount : float;
  h_merchant : string;
  h_hour : Z;
  h_region : string
}.

(** The dictionary [analyze_spending_patterns] returns. *)
Record patterns := {
  avg_amount : float;
  frequent_merchant : string;
  avg_hour : float;
  frequent_region : string
}.

(** The reasons a transaction collects, one constructor per text. *)
Inductive reason :=
| CautionSpendZone                      (* $501-$2,000 *)
| RiskSpendZone                         (* $2,001-$5,000 *)
| HighRiskSpendZone                     (* $5,001-$10,000 *)
| SevereSpendZone                       (* $10,001-$20,000 *)
| CriticalSpendZone                     (* >$20,000 *)
| OutsideAlberta
| UnknownLocation
| LateNight
| MerchantCategory (label : string)
| HighVelocity
| RegionChange
| AmountAboveNormal (avg : float)
| MerchantDiffers (usual : string)
| TimeUnusual
| RegionUnusual (usual : string)
| LocationMessage (msg : string)
| VerificationFailedDeclined
| VerificationPassed.

(** The prompts of [input]. *)
Inductive prompt :=
| EnterAmount | EnterLocation | ChooseMerchant | AnalyzeAnother
| EnterLastName | EnterDob | EnterCvv | EnterPin | SelectOption.

(** What [print] writes; a constructor stands for one block of lines. *)
Inductive message :=
| Banner
| NewTransaction
| AmountMustBePositive
| InvalidNumber
| LowValueApproved
| MerchantTypeMenu
| VerificationTriggered (risk amount : float)
| VerificationRequired
| TierFull | TierPinPlusOne | TierPinOnly
| LastNameMismatch | BirthdateMismatch | CvvMismatch | PinIncorrect
| ChooseOneOption
| InvalidChoice
| VerificationPassedMsg
| FraudResult (risk : float) (decision : string) (reasons : list reason)
| FailedAttemptsWarning
| CardFrozen
| CardPermanentlyBlocked.

Inductive output :=
| Ask (p : prompt)
| Say (m : message).

(** The variables of [main], with the module's [spending_history].
    ([session_log] only feeds the summary printed after the loop and is left
    out, as is that summary.) *)
Record session := {
  flagged_count : Z;
  pin_fails : Z;
  card_blocked : bool;
  last_tx_time : option Z;
  last_region : option string;
  spending_history : list history_entry
}.

(** ** Input and output *)

Record world := {
  stdin : list string;     (* the lines still to be read *)
  clock : nat -> Z;        (* the reading of the n-th call of datetime.now *)
  ticks : nat;             (* the calls of datetime.now so far *)
  stdout : list output     (* prompts and messages, oldest first *)
}.

Inductive result (A : Type) :=
| Ret (a : A) (w : world)
| EOFError (w : world).
Arguments Ret {A} a w.
Arguments EOFError {A} w.

Definition io (A : Type) : Type := world -> result A.

Definition ret {A} (a : A) : io A := fun w => Ret a w.

Definition bind {A B} (m : io A) (k : A -> io B) : io B :=
  fun w => match m w with
           | Ret a w' => k a w'
           | EOFError w' => EOFError w'
           end.

Notation "x <- m ;; k" := (bind m (fun x => k))
  (at level 61, m at next level, right associativity).
Notation "m ;; k" := (bind m (fun _ => k))
  (at level 61, right associativity).

Definition emit (o : output) (w : world) : world :=
  {| stdin := stdin w; clock := clock w; ticks := ticks w;
     stdout := stdout w ++ [o] |}.

Definition print (m : message) : io unit :=
  fun w => Ret tt (emit (Say m) w).

Definition input (p : prompt) : io string :=
  fun w => match stdin w with
           | [] => EOFError (emit (Ask p) w)
           | line :: rest =>
               Ret line {| stdin := rest; clock := clock w; ticks := ticks w;
                           stdout := stdout w ++ [Ask p] |}
           end.

Definition datetime_now : io Z :=
  fun w => Ret (clock w (ticks w))
               {| stdin := stdin w; clock := clock w; ticks := S (ticks w);
                  stdout := stdout w |}.

(** The world [w] once the input is down to [rest] and [out] was written. *)
Definition after (w : world) (rest : list string) (out : list output) : world :=
  {| stdin := rest; clock := clock w; ticks := ticks w;
     stdout := stdout w ++ out |}.

(** [now.hour] *)
Definition hour (t : Z) : Z := ((t / 3600000000) mod 24)%Z.

(** ** A runtime to evaluate the engine on

    The engine below takes [float], [sum], the iteration order of sets and
    the tables of [pycountry] as parameters.  These instances are enough to
    run it on the inputs of the examples: amounts written as whole numbers,
    sums from left to right, sets in the order of first occurrence, and a
    world in which no region outside Alberta is known. *)

Fixpoint digits_value (s : string) (acc : Z) : option Z :=
  match s with
  | EmptyString => Some acc
  | String c s' =>
      let n := nat_of_ascii c in
      if Nat.leb 48 n && Nat.leb n 57
      then digits_value s' (10 * acc + Z.of_nat (n - 48))
      else None
  end.

Definition whole_number (s : string) : option float :=
  match s with
  | EmptyString => None
  | String "-" EmptyString => None
  | String "-" s' => option_map (fun z => float_of_Z (- z)) (digits_value s' 0)
  | _ => option_map float_of_Z (digits_value s 0)
  end.

Definition sum_left_to_right (xs : list float) : float :=
  fold_left PrimFloat.add xs 0%float.

Fixpoint first_occurrences (xs : list string) : list string :=
  match xs with
  | [] => []
  | x :: xs' => x :: filter (fun y => negb (String.eqb y x)) (first_occurrences xs')
  end.

Definition nowhere (_ : string) : bool := false.

(** A clock that starts at noon and advances 100 seconds between readings. *)
Definition noon_clock (n : nat) : Z :=
  (12 * 3600000000 + Z.of_nat n * 100000000)%Z.

(** The lines a holder types for one transaction of the examples: 1500
    dollars, a location that does not parse, groceries, then the PIN and the
    answer to the last question. *)
Definition flagged_transaction (pin again : string) : list string :=
  [ "1500"; "nowhere"; "1"; pin; again ]%string.

(** Four such transactions verified with the right PIN, then one with a
    wrong PIN, the holder going on each time. *)
Definition four_passed_one_failed : list string :=
  flagged_transaction "1234" "yes" ++ flagged_transaction "1234" "yes" ++
  flagged_transaction "1234" "yes" ++ flagged_transaction "1234" "yes" ++
  flagged_transaction "0000" "yes".

(** The notice of a frozen card. *)
Definition is_frozen_notice (o : output) : bool :=
  match o with
  | Say CardFrozen => true
  | _ => false
  end.

(** A world in which [lines] are about to be typed. *)
Definition typed (lines : list string) : world :=
  {| stdin := lines; clock := noon_clock; ticks := 0; stdout := [] |}.

(** A history of five grocery purchases of 40 dollars at noon in Alberta. *)
Definition five_groceries : list history_entry :=
  repeat {| h_amount := 40%float; h_merchant := "Groceries / Essentials";
            h_hour := 12; h_region := "ab" |} 5.

(** A history of five purchases whose averages are 40 dollars and noon,
    mostly groceries, mostly in Alberta. *)
Definition varied_purchases : list history_entry :=
  [ {| h_amount := 10%float; h_merchant := "Groceries / Essentials";
       h_hour := 8; h_region := "ab" |};
    {| h_amount := 20%float; h_merchant := "Groceries / Essentials";
       h_hour := 10; h_region := "ab" |};
    {| h_amount := 30%float; h_merchant := "Electronics / Tech";
       h_hour := 12; h_region := "ab" |};
    {| h_amount := 40%float; h_merchant := "Groceries / Essentials";
       h_hour := 14; h_region := "on" |};
    {| h_amount := 100%float; h_merchant := "Electronics / Tech";
       h_hour := 16; h_region := "ab" |} ].

(** A session with [n] failed verifications so far. *)
Definition after_failures (n : Z) : session :=
  {| flagged_count := n; pin_fails := n; card_blocked := false;
     last_tx_time := None; last_region := None; spending_history := [] |}.

(** ** The engine *)

Section Engine.

(** What the module takes from the Python runtime and from [pycountry]. *)

(** [float(s)]; [None] when it raises [ValueError]. *)
Variable float_of_string : string -> option float.
(** [sum(xs)] of a list of floats. *)
Variable float_sum : list float -> float.
(** The order in which iterating over [set(xs)] yields its elements. *)
Variable set_iter : list string -> list string.
(** [name in WORLD_PROVINCES] and [name in WORLD_COUNTRIES]. *)
Variable WORLD_PROVINCES : string -> bool.
Variable WORLD_COUNTRIES : string -> bool.

Local Open Scope float_scope.

(** *** Location validation *)

Definition validate_location (location : string) : option string * bool * string :=
  let location := strip (lower location) in
  match split "," location with
  | [city; region] =>
      let city := strip city in
      let region := strip region in
      if existsb (String.eqb city) ALBERTA_CITIES && String.eqb region "ab" then
        (Some "ab"%string, true, "Valid Alberta location"%string)
      else if WORLD_PROVINCES region then
        (Some region, true, "Valid world subdivision/state"%string)
      else if WORLD_COUNTRIES region then
        (Some region, true, "Valid world country"%string)
      else
        (None, false, "Unknown location (not in global database)"%string)
  | _ => (None, false, "Invalid format. Use: City, Region."%string)
  end.

(** *** Risk components

    Each takes the list of reasons collected so far and returns its
    contribution with the list as the call leaves it. *)

Definition add_amount_zone_risk (amount : float) (reasons : list reason)
  : float * list reason :=
  if amount <=? 500 then (0.0, reasons)
  else if amount <=? 2000 then (0.10, reasons ++ [CautionSpendZone])
  else if amount <=? 5000 then (0.20, reasons ++ [RiskSpendZone])
  else if amount <=? 10000 then (0.30, reasons ++ [HighRiskSpendZone])
  else if amount <=? 20000 then (0.40, reasons ++ [SevereSpendZone])
  else (0.50, reasons ++ [CriticalSpendZone]).

Definition is_ab (region : option string) : bool :=
  match region with
  | Some r => String.eqb r "ab"
  | None => false
  end.

Definition add_location_risk (region : option string) (reasons : list reason)
  : float * list reason :=
  if negb (is_ab region) then (0.30, reasons ++ [OutsideAlberta])
  else (0.0, reasons).

Definition add_unknown_location_risk (known_location : bool) (reasons : list reason)
  : float * list reason :=
  if negb known_location then (0.10, reasons ++ [UnknownLocation])
  else (0.0, reasons).

Definition add_time_of_day_risk (now : Z) (reasons : list reason)
  : float * list reason :=
  if (0 <=? hour now)%Z && (hour now <? 5)%Z then (0.10, reasons ++ [LateNight])
  else (0.0, reasons).

Definition add_merchant_risk (merchant_choice : string) (reasons : list reason)
  : float * list reason :=
  let '(label, risk) :=
    match dict_get MERCHANT_RISK merchant_choice with
    | Some v => v
    | None => MERCHANT_OTHER
    end in
  (risk, reasons ++ [MerchantCategory label]).

Definition add_velocity_risk (last_tx_time : option Z) (now : Z) (reasons : list reason)
  : float * list reason :=
  match last_tx_time with
  | None => (0.0, reasons)
  | Some last =>
      if (now - last <=? 60000000)%Z then (0.15, reasons ++ [HighVelocity])
      else (0.0, reasons)
  end.

Definition add_location_jump_risk (last_region region : option string)
  (reasons : list reason) : float * list reason :=
  match last_region with
  | None => (0.0, reasons)
  | Some _ =>
      if negb (String.eqb (or_unknown region) (or_unknown last_region))
      then (0.10, reasons ++ [RegionChange])
      else (0.0, reasons)
  end.

(** *** Spending pattern analysis *)

(** [xs.count(x)] *)
Definition count (xs : list string) (x : string) : Z :=
  Z.of_nat (List.length (filter (String.eqb x) xs)).

(** [max(x :: xs, key=key)]: the first element whose key is the greatest. *)
Fixpoint max_key (key : string -> Z) (best : string) (xs : list string) : string :=
  match xs with
  | [] => best
  | x :: xs' => max_key key (if (key best <? key x)%Z then x else best) xs'
  end.

(** [max(set(xs), key=xs.count)].  [max] of an empty set raises
    [ValueError]; the set of a list is empty only when the list is, and the
    caller has at least five items. *)
Definition most_frequent (xs : list string) : string :=
  match set_iter xs with
  | [] => ""%string
  | x :: rest => max_key (count xs) x rest
  end.

(** The two averages divide by [len]; the division of a sum of hours by
    [len], both integers, is exact in this form while they are below 2^53. *)
Definition analyze_spending_patterns (spending_history : list history_entry)
  : option patterns :=
  if Nat.ltb (List.length spending_history) 5 then None
  else
    let amounts := map h_amount spending_history in
    let merchants := map h_merchant spending_history in
    let hours := map h_hour spending_history in
    let regions := map h_region spending_history in
    Some {| avg_amount :=
              float_sum amounts / float_of_Z (Z.of_nat (List.length amounts));
            frequent_merchant := most_frequent merchants;
            avg_hour :=
              float_of_Z (fold_left Z.add hours 0%Z)
              / float_of_Z (Z.of_nat (List.length hours));
            frequent_region := most_frequent regions |}.

Definition add_behavioral_risk (spending_history : list history_entry)
  (amount : float) (merchant_label : string) (now : Z) (region : string)
  (reasons : list reason) : float * list reason :=
  match analyze_spending_patterns spending_history with
  | None => (0.0, reasons)
  | Some p =>
      let risk := 0.0 in
      (* Amount vs normal *)
      let '(risk, reasons) :=
        if amount >? avg_amount p * 3
        then (risk + 0.20, reasons ++ [AmountAboveNormal (avg_amount p)])
        else (risk, reasons) in
      (* Merchant vs usual *)
      let '(risk, reasons) :=
        if negb (String.eqb merchant_label (frequent_merchant p))
        then (risk + 0.10, reasons ++ [MerchantDiffers (frequent_merchant p)])
        else (risk, reasons) in
      (* Time vs usual *)
      let '(risk, reasons) :=
        if abs (float_of_Z (hour now) - avg_hour p) >? 6
        then (risk + 0.10, reasons ++ [TimeUnusual])
        else (risk, reasons) in
      (* Region vs usual *)
      let '(risk, reasons) :=
        if negb (String.eqb region (frequent_region p))
        then (risk + 0.10, reasons ++ [RegionUnusual (frequent_region p)])
        else (risk, reasons) in
      (risk, reasons)
  end.

(** *** Decision *)

Definition decide (risk : float) : string :=
  if risk <? 0.50 then "APPROVED"
  else if (0.50 <=? risk) && (risk <=? 0.80) then "APPROVED (FLAGGED)"
  else if (0.80 <? risk) && (risk <=? 0.90) then "CALL BANK (Verification Recommended)"
  else if (0.90 <? risk) && (risk <? 1.0) then "CARD UNDER REVIEW (High Risk)"
  else "CRITICAL RISK (Manual Review Needed)".

Definition print_block_instructions (block_type : string) : io unit :=
  if String.eqb block_type "frozen" then print CardFrozen
  else print CardPermanentlyBlocked.

(** *** Verification

    [run_verification] picks one of three tiers; each tier is a definition of
    its own here. *)

(** Full verification: last name, date of birth, CVV, PIN. *)
Definition full_verification : io bool :=
  print TierFull ;;
  last <- input EnterLastName ;;
  let last := lower (strip last) in
  if negb (String.eqb last (lower SIM_LAST_NAME)) then
    print LastNameMismatch ;; ret false
  else
  dob <- input EnterDob ;;
  let dob := strip dob in
  if negb (String.eqb dob SIM_DOB) then
    print BirthdateMismatch ;; ret false
  else
  cvv <- input EnterCvv ;;
  let cvv := strip cvv in
  if negb (String.eqb cvv SIM_CVV) then
    print CvvMismatch ;; ret false
  else
  pin <- input EnterPin ;;
  let pin := strip pin in
  if negb (String.eqb pin CORRECT_PIN) then
    print PinIncorrect ;; ret false
  else
  print VerificationPassedMsg ;; ret true.

(** Mid tier: PIN and one question. *)
Definition pin_plus_one_verification : io bool :=
  print TierPinPlusOne ;;
  pin <- input EnterPin ;;
  let pin := strip pin in
  if negb (String.eqb pin CORRECT_PIN) then
    print PinIncorrect ;; ret false
  else
  print ChooseOneOption ;;
  choice <- input SelectOption ;;
  let choice := strip choice in
  if String.eqb choice "1" then
    last <- input EnterLastName ;;
    let last := lower (strip last) in
    if negb (String.eqb last (lower SIM_LAST_NAME)) then
      print LastNameMismatch ;; ret false
    else print VerificationPassedMsg ;; ret true
  else if String.eqb choice "2" then
    dob <- input EnterDob ;;
    let dob := strip dob in
    if negb (String.eqb dob SIM_DOB) then
      print BirthdateMismatch ;; ret false
    else print VerificationPassedMsg ;; ret true
  else if String.eqb choice "3" then
    cvv <- input EnterCvv ;;
    let cvv := strip cvv in
    if negb (String.eqb cvv SIM_CVV) then
      print CvvMismatch ;; ret false
    else print VerificationPassedMsg ;; ret true
  else
    print InvalidChoice ;; ret false.

(** PIN only tier. *)
Definition pin_only_verification : io bool :=
  print TierPinOnly ;;
  pin <- input EnterPin ;;
  let pin := strip pin in
  if negb (String.eqb pin CORRECT_PIN) then
    print PinIncorrect ;; ret false
  else
  print VerificationPassedMsg ;; ret true.

Definition run_verification (amount risk : float) : io bool :=
  print VerificationRequired ;;
  (* Decide verification tier *)
  let full_check := (amount >? 5000) || (risk >=? 0.90) in
  let mid_check := (amount >? 2000) || (risk >=? 0.70) in
  let pin_only := (amount >? 1000) || (risk >=? 0.50) in
  if full_check then full_verification
  else if mid_check then pin_plus_one_verification
  else if pin_only then pin_only_verification
  else
    (* If somehow called with no tier *)
    ret true.

(** *** The session loop of [main] *)

(** How an iteration leaves the [while True] loop body. *)
Inductive loop_exit := Continue | Break.

(** The amount prompt: asks until a line parses as a positive number.  The
    [input] call stands outside the [try], so the end of the input is not
    caught. *)
Fixpoint read_amount_from (lines : list string) (w : world) : result float :=
  match lines with
  | [] => EOFError (emit (Ask EnterAmount) w)
  | amt_input :: rest =>
      let w := {| stdin := rest; clock := clock w; ticks := ticks w;
                  stdout := stdout w ++ [Ask EnterAmount] |} in
      match float_of_string amt_input with
      | Some amount =>
          if amount >? 0 then Ret amount w
          else read_amount_from rest (emit (Say AmountMustBePositive) w)
      | None => read_amount_from rest (emit (Say InvalidNumber) w)
      end
  end.

Definition read_amount : io float := fun w => read_amount_from (stdin w) w.

(** The question that ends every transaction that does not freeze the card;
    [true] when the answer is yes. *)
Definition ask_again : io bool :=
  again <- input AnalyzeAnother ;;
  ret (String.eqb (lower again) "yes").

(** Quick auto-approval for small amounts. *)
Definition auto_approve (s : session) (amount : float) (now : Z)
  : io (loop_exit * session) :=
  print LowValueApproved ;;
  let s :=
    {| flagged_count := flagged_count s;
       pin_fails := pin_fails s;
       card_blocked := card_blocked s;
       last_tx_time := Some now;
       last_region := Some "ab"%string;
       spending_history :=
         spending_history s ++
         [ {| h_amount := amount; h_merchant := "Low-Value Auto-Approved";
              h_hour := hour now; h_region := "ab" |} ] |} in
  again <- ask_again ;;
  if negb again then ret (Break, s) else ret (Continue, s).

(** The risk calculation: the eight components in order, the location
    message, the clamp. *)
Definition risk_calculation (s : session) (amount : float) (now : Z)
  (region : option string) (known_location : bool) (loc_reason : string)
  (choice merchant_label : string) : float * list reason :=
  let reasons := [] in
  let risk := 0.0 in
  let '(r, reasons) := add_amount_zone_risk amount reasons in
  let risk := risk + r in
  let '(r, reasons) := add_location_risk region reasons in
  let risk := risk + r in
  let '(r, reasons) := add_unknown_location_risk known_location reasons in
  let risk := risk + r in
  let '(r, reasons) := add_time_of_day_risk now reasons in
  let risk := risk + r in
  let '(r, reasons) := add_merchant_risk choice reasons in
  let risk := risk + r in
  let '(r, reasons) := add_velocity_risk (last_tx_time s) now reasons in
  let risk := risk + r in
  let '(r, reasons) := add_location_jump_risk (last_region s) region reasons in
  let risk := risk + r in
  let '(r, reasons) :=
    add_behavioral_risk (spending_history s) amount merchant_label now
      (or_unknown region) reasons in
  let risk := risk + r in
  let reasons := reasons ++ [LocationMessage loc_reason] in
  let risk := py_min risk 1.0 in
  (risk, reasons).

Definition verification_required (amount risk : float) : bool :=
  (amount >? 1000) || (risk >=? 0.50).

(** [card_blocked = True] *)
Definition block_card (s : session) : session :=
  {| flagged_count := flagged_count s;
     pin_fails := pin_fails s;
     card_blocked := true;
     last_tx_time := last_tx_time s;
     last_region := last_region s;
     spending_history := spending_history s |}.

(** The branch of a failed verification. *)
Definition failed_verification (s : session) (now : Z) (region : option string)
  (risk : float) (reasons : list reason) : io (loop_exit * session) :=
  let s :=
    {| flagged_count := flagged_count s + 1;
       pin_fails := pin_fails s + 1;
       card_blocked := card_blocked s;
       last_tx_time := last_tx_time s;
       last_region := last_region s;
       spending_history := spending_history s |} in
  let reasons := reasons ++ [VerificationFailedDeclined] in
  print (FraudResult risk "DECLINED (Failed Verification)" reasons) ;;
  (* Move to next transaction *)
  let next_transaction : io (loop_exit * session) :=
    again <- ask_again ;;
    if negb again then ret (Break, s)
    else ret (Continue,
              {| flagged_count := flagged_count s;
                 pin_fails := pin_fails s;
                 card_blocked := card_blocked s;
                 last_tx_time := Some now;
                 last_region := Some (or_unknown region);
                 spending_history := spending_history s |}) in
  (* Escalation based on failed attempts *)
  if (pin_fails s =? 3)%Z then
    print FailedAttemptsWarning ;; next_transaction
  else if (pin_fails s =? 5)%Z then
    print_block_instructions "frozen" ;; ret (Break, block_card s)
  else if (pin_fails s >=? 7)%Z then
    print_block_instructions "blocked" ;; ret (Break, block_card s)
  else next_transaction.

(** The final decision output and the update of the state. *)
Definition final_decision (s : session) (amount : float) (now : Z)
  (region : option string) (merchant_label : string) (risk : float)
  (decision : string) (reasons : list reason) : io (loop_exit * session) :=
  print (FraudResult risk decision reasons) ;;
  let s :=
    {| flagged_count :=
         if negb (String.eqb decision "APPROVED") then flagged_count s + 1
         else flagged_count s;
       pin_fails := pin_fails s;
       card_blocked := card_blocked s;
       last_tx_time := Some now;
       last_region := Some (or_unknown region);
       spending_history :=
         spending_history s ++
         [ {| h_amount := amount; h_merchant := merchant_label;
              h_hour := hour now; h_region := or_unknown region |} ] |} in
  (* Flag-based freeze *)
  if (flagged_count s >=? 5)%Z then
    print_block_instructions "frozen" ;; ret (Break, block_card s)
  else
    again <- ask_again ;;
    if negb again then ret (Break, s) else ret (Continue, s).

(** The branch of a successful verification: it resets the PIN fail counter
    and goes on to the final decision. *)
Definition passed_verification (s : session) (amount : float) (now : Z)
  (region : option string) (merchant_label : string) (risk : float)
  (decision : string) (reasons : list reason) : io (loop_exit * session) :=
  let s :=
    {| flagged_count := flagged_count s;
       pin_fails := 0;
       card_blocked := card_blocked s;
       last_tx_time := last_tx_time s;
       last_region := last_region s;
       spending_history := spending_history s |} in
  final_decision s amount now region merchant_label risk decision
    (reasons ++ [VerificationPassed]).

(** From the verification logic to the end of the loop body. *)
Definition verify_and_decide (s : session) (amount : float) (now : Z)
  (region : option string) (merchant_label : string) (risk : float)
  (decision : string) (reasons : list reason) : io (loop_exit * session) :=
  if verification_required amount risk then
    print (VerificationTriggered risk amount) ;;
    verified <- run_verification amount risk ;;
    if negb verified then failed_verification s now region risk reasons
    else passed_verification s amount now region merchant_label risk decision reasons
  else
    final_decision s amount now region merchant_label risk decision reasons.

(** One run of the body of [while True]. *)
Definition transaction (s : session) : io (loop_exit * session) :=
  if card_blocked s then ret (Break, s)
  else
    print NewTransaction ;;
    amount <- read_amount ;;
    now <- datetime_now ;;
    if amount <? 150 then auto_approve s amount now
    else
      location <- input EnterLocation ;;
      let '(region, known_location, loc_reason) := validate_location location in
      print MerchantTypeMenu ;;
      choice <- input ChooseMerchant ;;
      let choice := strip choice in
      let choice :=
        match dict_get MERCHANT_RISK choice with
        | Some _ => choice
        | None => "7"%string
        end in
      let merchant_label :=
        match dict_get MERCHANT_RISK choice with
        | Some (label, _) => label
        | None => fst MERCHANT_OTHER
        end in
      let '(risk, reasons) :=
        risk_calculation s amount now region known_location loc_reason
          choice merchant_label in
      let decision := decide risk in
      verify_and_decide s amount now region merchant_label risk decision reasons.

(** *** The session as a transition system *)

Inductive config :=
| Running (s : session) (w : world)   (* at the head of the loop *)
| Exited (s : session) (w : world)    (* the loop was left by [break] *)
| Crashed (w : world).                (* the end of the input was hit *)

Definition run_iteration (s : session) (w : world) : config :=
  match transaction s w with
  | Ret (Continue, s') w' => Running s' w'
  | Ret (Break, s') w' => Exited s' w'
  | EOFError w' => Crashed w'
  end.

Definition step (c : config) : config :=
  match c with
  | Running s w => run_iteration s w
  | _ => c
  end.

Fixpoint steps (n : nat) (c : config) : config :=
  match n with
  | O => c
  | S n' => steps n' (step c)
  end.

(** The state of [main] when it enters the loop. *)
Definition initial_session : session :=
  {| flagged_count := 0; pin_fails := 0; card_blocked := false;
     last_tx_time := None; last_region := None; spending_history := [] |}.

Definition initial (lines : list string) (clk : nat -> Z) : config :=
  Running initial_session
    {| stdin := lines; clock := clk; ticks := 0; stdout := [Say Banner] |}.

(** The configurations a session passes through. *)
Definition reachable (c : config) : Prop :=
  exists lines clk n, steps n (initial lines clk) = c.

(** *** The specification's reading of the score *)

(** The composite score of the specification: the sum of the contributions,
    clamped at 1. *)
Definition composite_score (contributions : list float) : float :=
  py_min (fold_left PrimFloat.add contributions 0.0) 1.0.

(** The values a component can contribute, component by component. *)
Definition subset_sums (increments : list float) : list float :=
  fold_left (fun sums c => flat_map (fun r => [r; r + c]) sums) increments [0.0].

Definition contribution_values : list (list float) :=
  [ [0.0; 0.10; 0.20; 0.30; 0.40; 0.50];        (* amount zone *)
    [0.0; 0.30];                                (* outside Alberta *)
    [0.0; 0.10];                                (* unknown location *)
    [0.0; 0.10];                                (* late night *)
    map (fun item => snd (snd item)) MERCHANT_RISK;
    [0.0; 0.15];                                (* velocity *)
    [0.0; 0.10];                                (* location jump *)
    subset_sums [0.20; 0.10; 0.10; 0.10] ].     (* behaviour *)

(** [P] holds of every way to choose one value from each list. *)
Fixpoint all_choices (P : list float -> bool) (candidates : list (list float))
  (chosen : list float) : bool :=
  match candidates with
  | [] => P (rev chosen)
  | cs :: rest => forallb (fun c => all_choices P rest (c :: chosen)) cs
  end.

Definition in_unit_interval (x : float) : bool := (0 <=? x) && (x <=? 1).

(** The deviation checks of the behavioural component as the specification
    lists them: whether the check triggers, what it adds, the reason. *)
Definition deviation_checks (p : patterns) (amount : float)
  (merchant_label : string) (now : Z) (region : string)
  : list (bool * float * reason) :=
  [ (amount >? avg_amount p * 3, 0.20, AmountAboveNormal (avg_amount p));
    (negb (String.eqb merchant_label (frequent_merchant p)), 0.10,
     MerchantDiffers (frequent_merchant p));
    (abs (float_of_Z (hour now) - avg_hour p) >? 6, 0.10, TimeUnusual);
    (negb (String.eqb region (frequent_region p)), 0.10,
     RegionUnusual (frequent_region p)) ].

Definition triggered (checks : list (bool * float * reason))
  : list (bool * float * reason) :=
  filter (fun c => fst (fst c)) checks.

(** The answers each challenge accepts. *)
Definition surname_matches (line : string) : bool :=
  String.eqb (lower (strip line)) (lower SIM_LAST_NAME).
Definition dob_matches (line : string) : bool := String.eqb (strip line) SIM_DOB.
Definition cvv_matches (line : string) : bool := String.eqb (strip line) SIM_CVV.
Definition pin_matches (line : string) : bool := String.eqb (strip line) CORRECT_PIN.

(** *** A logic for the session's invariants *)

(** The instructions of a permanent block were never printed. *)
Definition never_blocked (w : world) : Prop :=
  ~ In (Say CardPermanentlyBlocked) (stdout w).

(** [m] does not print them either, and what it returns satisfies [Q]. *)
Definition quietly {A : Type} (m : io A) (Q : A -> Prop) : Prop :=
  forall w, never_blocked w ->
    match m w with
    | Ret a w' => never_blocked w' /\ Q a
    | EOFError w' => never_blocked w'
    end.

(** What holds of the session at each point of the loop. *)
Definition session_ok (c : loop_exit) (s : session) : Prop :=
  (0 <= pin_fails s <= 5)%Z /\
  (c = Continue -> (pin_fails s <= 4)%Z /\ card_blocked s = false).

Definition config_ok (c : config) : Prop :=
  match c with
  | Running s w => session_ok Continue s /\ never_blocked w
  | Exited s w => session_ok Break s /\ never_blocked w
  | Crashed w => never_blocked w
  end.

Definition exit_ok (r : loop_exit * session) : Prop :=
  session_ok (fst r) (snd r).

(** *** The amount prompt, line by line *)

(** A line the amount prompt turns down: not a number, or not above 0. *)
Definition rejected_amount (line : string) : bool :=
  match float_of_string line with
  | Some amount => negb (amount >? 0)
  | None => true
  end.

(** What is written for such a line: the prompt, then why it was turned
    down. *)
Definition rejection (line : string) : list output :=
  [ Ask EnterAmount;
    Say (match float_of_string line with
         | Some _ => AmountMustBePositive
         | None => InvalidNumber
         end) ].

(** *** What the loop keeps of a transaction *)

(** An entry as the loop records it: a positive amount, an hour of the day
    and a region that is not empty. *)
Definition entry_ok (e : history_entry) : Prop :=
  (h_amount e >? 0) = true /\ (0 <= h_hour e < 24)%Z /\ h_region e <> ""%string.

(** What holds of the two counters at each point of the loop. *)
Definition counters_ok (c : config) : Prop :=
  match c with
  | Running s _ =>
      card_blocked s = false /\
      (0 <= pin_fails s <= 4)%Z /\
      (pin_fails s <= flagged_count s <= pin_fails s + 4)%Z
  | Exited s _ =>
      (0 <= pin_fails s <= 5)%Z /\
      (pin_fails s <= flagged_count s <= 9)%Z /\
      (card_blocked s = true -> (5 <= flagged_count s)%Z)
  | Crashed _ => True
  end.

(** *** The input a piece of the program takes *)

(** When [m] returns, at least [k] lines of the input are gone and none was
    put back. *)
Definition takes {A : Type} (k : nat) (m : io A) : Prop :=
  forall w,
    match m w with
    | Ret _ w' => (List.length (stdin w') + k <= List.length (stdin w))%nat
    | EOFError _ => True
    end.

(** The question a choice of the middle tier selects: its prompt, the answers
    it accepts, and the message of a wrong answer. *)
Definition chosen_factor (choice : string)
  : option (prompt * (string -> bool) * message) :=
  if String.eqb choice "1" then Some (EnterLastName, surname_matches, LastNameMismatch)
  else if String.eqb choice "2" then Some (EnterDob, dob_matches, BirthdateMismatch)
  else if String.eqb choice "3" then Some (EnterCvv, cvv_matches, CvvMismatch)
  else None.

(** The labels of [decide]. *)
Definition APPROVED : string := "APPROVED".
Definition APPROVED_FLAGGED : string := "APPROVED (FLAGGED)".
Definition CALL_BANK : string := "CALL BANK (Verification Recommended)".
Definition UNDER_REVIEW : string := "CARD UNDER REVIEW (High Risk)".
Definition CRITICAL_RISK : string := "CRITICAL RISK (Manual Review Needed)".

(** [x] is a number: only a NaN differs from itself. *)
Definition is_number (x : float) : bool := x <=? x.

(** *** The score in exact hundredths *)

(** [x] times 100 rounded to the nearest integer, computed without
    rounding error from the bits of [x]: the hundredths a decimal weight such
    as 0.15 stands for. *)
Definition hundredths (x : float) : Z :=
  match Prim2SF x with
  | S754_finite negative m e =>
      let n := (Z.pos m * 100)%Z in
      let q :=
        if (e <? 0)%Z then ((2 * n + 2 ^ (- e)) / (2 * 2 ^ (- e)))%Z
        else (n * 2 ^ e)%Z in
      if negative then (- q)%Z else q
  | _ => 0%Z
  end.

(** The clamped sum of the contributions in exact decimal arithmetic, in
    hundredths. *)
Definition exact_score (contributions : list float) : Z :=
  Z.min 100 (fold_left (fun sum c => (sum + hundredths c)%Z) contributions 0%Z).

(** The comparisons of a score that come out as those of the exact sum. *)
Definition compares_exactly (score : float) (exact : Z) : bool :=
  Bool.eqb (score >=? 0.50) (50 <=? exact)%Z &&
  Bool.eqb (score <? 0.50) (exact <? 50)%Z &&
  Bool.eqb (score >=? 0.70) (70 <=? exact)%Z &&
  Bool.eqb (score <=? 0.80) (exact <=? 80)%Z.

(** [P] holds of the float sum and of the exact sum of every way to choose
    one weighed value from each list, added to [f] and [z]. *)
Fixpoint all_sums (P : float -> Z -> bool) (candidates : list (list (float * Z)))
  (f : float) (z : Z) : bool :=
  match candidates with
  | [] => P f z
  | cs :: rest =>
      forallb (fun c => all_sums P rest (f + fst c) (z + snd c)%Z) cs
  end.

(** ** Properties *)

(** *** The order of floats

    The comparisons are those of the specification of binary64 values,
    which orders finite values by sign, exponent and mantissa. *)

Ltac sf_order :=
  unfold SFleb, SFltb, SFcompare;
  repeat match goal with
         | x : spec_float |- _ => destruct x as [[]|[]| |[] ? ?]
         end;
  try (intros; congruence);
  repeat match goal with
         | |- context [Z.compare ?a ?b] => destruct (Z.compare_spec a b)
         | |- context [Pos.compare_cont Eq ?a ?b] =>
             change (Pos.compare_cont Eq a b) with (Pos.compare a b);
             destruct (Pos.compare_spec a b)
         | |- context [CompOpp _] => cbn [CompOpp]
         end;
  intros; subst; try congruence; try lia.

Lemma SFleb_SFltb_trans (x y z : spec_float) :
  SFleb x y = true -> SFltb y z = true -> SFltb x z = true.
Proof. sf_order. Qed.

Lemma SFltb_SFleb_trans (x y z : spec_float) :
  SFltb x y = true -> SFleb y z = true -> SFltb x z = true.
Proof. sf_order. Qed.

Lemma SFleb_trans (x y z : spec_float) :
  SFleb x y = true -> SFleb y z = true -> SFleb x z = true.
Proof. sf_order. Qed.

Lemma SFltb_not_SFleb (x y : spec_float) :
  SFltb x y = true -> SFleb y x = false.
Proof. sf_order. Qed.


Lemma SFleb_total (x y : spec_float) :
  SFleb x x = true -> SFleb y y = true -> SFleb x y = false -> SFltb y x = true.
Proof. sf_order. Qed.

Lemma SFltb_SFleb_refl (x y : spec_float) :
  SFltb x y = true -> SFleb y y = true.
Proof. sf_order. Qed.

Lemma float_le_lt_trans (x y z : float) :
  (x <=? y) = true -> (y <? z) = true -> (x <? z) = true.
Proof. rewrite leb_spec, !ltb_spec. apply SFleb_SFltb_trans. Qed.

Lemma float_lt_le_trans (x y z : float) :
  (x <? y) = true -> (y <=? z) = true -> (x <? z) = true.
Proof. rewrite leb_spec, !ltb_spec. apply SFltb_SFleb_trans. Qed.

Lemma float_le_trans (x y z : float) :
  (x <=? y) = true -> (y <=? z) = true -> (x <=? z) = true.
Proof. rewrite !leb_spec. apply SFleb_trans. Qed.

Lemma float_lt_not_le (x y : float) :
  (x <? y) = true -> (y <=? x) = false.
Proof. rewrite leb_spec, ltb_spec. apply SFltb_not_SFleb. Qed.


(** Two numbers are ordered one way or the other: [x], which is above
    something, and [y], which equals itself, are not NaN. *)
Lemma float_not_le_lt (b x y : float) :
  (b <? x) = true -> (y <=? y) = true -> (x <=? y) = false -> (y <? x) = true.
Proof.
  rewrite !leb_spec, !ltb_spec. intros Hb Hy Hxy.
  apply SFleb_total; auto. apply (SFltb_SFleb_refl _ _ Hb).
Qed.

(** *** The amount zones *)

(** C7: the amount-zone component contributes the value tabulated for the
    band of the amount: 0 up to 500, 0.10 above 500 and up to 2000 (the band
    501-2000 of whole amounts), 0.20 up to 5000, 0.30 up to 10000, 0.40 up to
    20000 and 0.50 above.  A positive amount lies in one of the bands; no amount
    lies in two of them, their values being distinct.  At both ends of each
    band the value is the band's: 2000 still gives 0.10 and 2001 gives 0.20. *)
Theorem amount_zone_table (amount : float) (reasons : list reason) :
  let zone := fst (add_amount_zone_risk amount reasons) in
  ((amount <=? 500) = true -> zone = 0.0) /\
  ((amount >? 500) = true -> (amount <=? 2000) = true -> zone = 0.10) /\
  ((amount >? 2000) = true -> (amount <=? 5000) = true -> zone = 0.20) /\
  ((amount >? 5000) = true -> (amount <=? 10000) = true -> zone = 0.30) /\
  ((amount >? 10000) = true -> (amount <=? 20000) = true -> zone = 0.40) /\
  ((amount >? 20000) = true -> zone = 0.50) /\
  ((amount >? 0) = true ->
   (amount <=? 500) = true \/
   (amount >? 500) = true /\ (amount <=? 2000) = true \/
   (amount >? 2000) = true /\ (amount <=? 5000) = true \/
   (amount >? 5000) = true /\ (amount <=? 10000) = true \/
   (amount >? 10000) = true /\ (amount <=? 20000) = true \/
   (amount >? 20000) = true) /\
  map (fun a => fst (add_amount_zone_risk a reasons))
      [500; 501; 2000; 2001; 5000; 5001; 10000; 10001; 20000; 20001]
  = [0.0; 0.10; 0.10; 0.20; 0.20; 0.30; 0.30; 0.40; 0.40; 0.50].
Proof.
  assert (above : forall lo hi : float,
             (lo <=? hi) = true -> (amount >? hi) = true -> (amount <=? lo) = false).
  { intros lo hi Hlh Hgt. apply float_lt_not_le.
    apply (float_le_lt_trans _ _ _ Hlh Hgt). }
  assert (over : forall b : float,
             (amount >? 0) = true -> (b <=? b) = true ->
             (amount <=? b) = false -> (amount >? b) = true).
  { intros b Hpos Hb Hle. apply (float_not_le_lt 0); assumption. }
  unfold add_amount_zone_risk. cbv zeta.
  repeat split.
  - intros H. rewrite H. reflexivity.
  - intros Hlo Hhi. rewrite (above 500 500), Hhi by (reflexivity || assumption).
    reflexivity.
  - intros Hlo Hhi.
    rewrite (above 500 2000), (above 2000 2000), Hhi by (reflexivity || assumption).
    reflexivity.
  - intros Hlo Hhi.
    rewrite (above 500 5000), (above 2000 5000), (above 5000 5000), Hhi
      by (reflexivity || assumption).
    reflexivity.
  - intros Hlo Hhi.
    rewrite (above 500 10000), (above 2000 10000), (above 5000 10000),
      (above 10000 10000), Hhi by (reflexivity || assumption).
    reflexivity.
  - intros Hlo.
    rewrite (above 500 20000), (above 2000 20000), (above 5000 20000),
      (above 10000 20000), (above 20000 20000) by (reflexivity || assumption).
    reflexivity.
  - intros Hpos.
    destruct (amount <=? 500) eqn:H1; [now left | right].
    apply over in H1; [| assumption | reflexivity].
    destruct (amount <=? 2000) eqn:H2; [now left | right].
    apply over in H2; [| assumption | reflexivity].
    destruct (amount <=? 5000) eqn:H3; [now left | right].
    apply over in H3; [| assumption | reflexivity].
    destruct (amount <=? 10000) eqn:H4; [now left | right].
    apply over in H4; [| assumption | reflexivity].
    destruct (amount <=? 20000) eqn:H5; [now left | right].
    apply over in H5; [| assumption | reflexivity].
    assumption.
Qed.

(** *** The behavioural component *)

Lemma max_key_greatest (key : string -> Z) (xs : list string) :
  forall best,
    In (max_key key best xs) (best :: xs) /\
    forall y, In y (best :: xs) -> (key y <= key (max_key key best xs))%Z.
Proof.
  induction xs as [| x xs IH]; intros best; cbn [max_key].
  - split; [left; reflexivity |]. intros y [<- | []]. lia.
  - destruct (IH (if (key best <? key x)%Z then x else best)) as [Hin Hmax].
    split.
    + destruct Hin as [Hin | Hin]; [| right; right; exact Hin].
      rewrite <- Hin. destruct (key best <? key x)%Z; [right; left | left]; reflexivity.
    + intros y [Hy | [Hy | Hy]].
      * subst y. specialize (Hmax _ (or_introl eq_refl)).
        destruct (Z.ltb_spec (key best) (key x)); lia.
      * subst y. specialize (Hmax _ (or_introl eq_refl)).
        destruct (Z.ltb_spec (key best) (key x)); lia.
      * apply Hmax. right. exact Hy.
Qed.

Lemma most_frequent_greatest (xs : list string) :
  xs <> [] ->
  (forall x, In x (set_iter xs) <-> In x xs) ->
  In (most_frequent xs) xs /\
  forall y, In y xs -> (count xs y <= count xs (most_frequent xs))%Z.
Proof.
  intros Hxs Hset. unfold most_frequent.
  destruct (set_iter xs) as [| x rest] eqn:Hiter.
  - destruct xs as [| x xs]; [contradiction |].
    destruct (proj2 (Hset x) (or_introl eq_refl)).
  - destruct (max_key_greatest (count xs) rest x) as [Hin Hmax].
    split; [apply Hset; exact Hin |].
    intros y Hy. apply Hmax. apply Hset. exact Hy.
Qed.

Lemma count_absent (xs : list string) (x : string) :
  ~ In x xs -> count xs x = 0%Z.
Proof.
  unfold count. induction xs as [| y xs IH]; intros Hx; [reflexivity |].
  cbn [filter]. destruct (String.eqb_spec x y) as [-> | _].
  - exfalso. apply Hx. left. reflexivity.
  - apply IH. intros H. apply Hx. right. exact H.
Qed.

(** The most frequent item is one of the list, and none occurs more often. *)
Lemma most_frequent_dominant (xs : list string) :
  xs <> [] ->
  (forall x, In x (set_iter xs) <-> In x xs) ->
  In (most_frequent xs) xs /\
  forall y, (count xs y <= count xs (most_frequent xs))%Z.
Proof.
  intros Hxs Hset.
  destruct (most_frequent_greatest xs Hxs Hset) as [Hin Hmax].
  split; [exact Hin |]. intros y.
  destruct (in_dec string_dec y xs) as [Hy | Hy]; [apply Hmax; exact Hy |].
  rewrite (count_absent xs y Hy). unfold count. lia.
Qed.

(** C8: with fewer than five entries in the history the behavioural
    component contributes 0 and leaves the reasons as they are.  With five or
    more there is a profile: its average amount is the sum of the amounts of
    the history divided by their number, its average hour the sum of the
    hours divided by their number, and, when iterating over a set yields
    exactly the elements of the list it was built from, its usual merchant and
    usual region occur in the history and nothing occurs there more often.
    The component returns the plain sum of what the triggered checks add, in
    their order (amount above three times the average amount, merchant other
    than the usual one, hour more than 6 away from the average hour, region
    other than the usual one), with their reasons appended in that order; the
    sum is not clamped (with all four triggered it is the whole
    0.20 + 0.10 + 0.10 + 0.10). *)
Theorem behavioral_risk_sum (history : list history_entry) (amount : float)
  (merchant_label : string) (now : Z) (region : string) (reasons : list reason) :
  ((List.length history < 5)%nat ->
   add_behavioral_risk history amount merchant_label now region reasons
   = (0.0, reasons)) /\
  ((5 <= List.length history)%nat ->
   exists p, analyze_spending_patterns history = Some p /\
     avg_amount p
     = float_sum (map h_amount history)
       / float_of_Z (Z.of_nat (List.length history)) /\
     avg_hour p
     = float_of_Z (fold_left Z.add (map h_hour history) 0%Z)
       / float_of_Z (Z.of_nat (List.length history)) /\
     ((forall xs x, In x (set_iter xs) <-> In x xs) ->
      (In (frequent_merchant p) (map h_merchant history) /\
       forall merchant,
         (count (map h_merchant history) merchant
          <= count (map h_merchant history) (frequent_merchant p))%Z) /\
      (In (frequent_region p) (map h_region history) /\
       forall r,
         (count (map h_region history) r
          <= count (map h_region history) (frequent_region p))%Z)) /\
     let hits := triggered (deviation_checks p amount merchant_label now region) in
     add_behavioral_risk history amount merchant_label now region reasons
     = (fold_left PrimFloat.add (map (fun c => snd (fst c)) hits) 0.0,
        reasons ++ map snd hits)).
Proof.
  unfold add_behavioral_risk, analyze_spending_patterns. split; intros Hlen.
  - apply Nat.ltb_lt in Hlen. rewrite Hlen. reflexivity.
  - assert (Hne : forall f : history_entry -> string, map f history <> []).
    { intros f. destruct history; [cbn in Hlen; lia | discriminate]. }
    apply Nat.ltb_ge in Hlen. rewrite Hlen. eexists. split; [reflexivity |].
    cbn [avg_amount frequent_merchant avg_hour frequent_region].
    rewrite !length_map.
    split; [reflexivity |]. split; [reflexivity |]. split.
    { intros Hset. split; apply most_frequent_dominant; auto. }
    unfold triggered, deviation_checks. cbn [avg_amount frequent_merchant avg_hour frequent_region filter fst snd].
    repeat match goal with
           | |- context [if ?b then _ else _] => destruct b
           end;
      cbn [map fold_left fst snd app]; rewrite <- ?app_assoc; cbn [app];
      rewrite ?app_nil_r; reflexivity.
Qed.

(** *** The composite score *)

Lemma all_choices_sound (P : list float -> bool) (candidates : list (list float)) :
  forall chosen picks,
    all_choices P candidates chosen = true ->
    Forall2 (@In float) picks candidates ->
    P (rev chosen ++ picks) = true.
Proof.
  induction candidates as [| cs rest IH]; intros chosen picks Hall Hpicks.
  - inversion Hpicks; subst. rewrite app_nil_r. exact Hall.
  - inversion Hpicks as [| c cs' picks' rest' Hc Hrest]; subst.
    cbn [all_choices] in Hall. rewrite forallb_forall in Hall.
    specialize (IH (c :: chosen) picks' (Hall c Hc) Hrest).
    cbn [rev] in IH. rewrite <- app_assoc in IH. exact IH.
Qed.

Ltac pick_value :=
  vm_compute; repeat (try (left; reflexivity); right); try reflexivity.

Lemma amount_zone_values (amount : float) (reasons : list reason) :
  In (fst (add_amount_zone_risk amount reasons)) (nth 0 contribution_values []).
Proof.
  unfold add_amount_zone_risk.
  repeat match goal with |- context [if ?b then _ else _] => destruct b end;
    pick_value.
Qed.

Lemma location_values (region : option string) (reasons : list reason) :
  In (fst (add_location_risk region reasons)) (nth 1 contribution_values []).
Proof. unfold add_location_risk. destruct (negb (is_ab region)); pick_value. Qed.

Lemma unknown_location_values (known_location : bool) (reasons : list reason) :
  In (fst (add_unknown_location_risk known_location reasons))
     (nth 2 contribution_values []).
Proof. unfold add_unknown_location_risk. destruct known_location; pick_value. Qed.

Lemma time_of_day_values (now : Z) (reasons : list reason) :
  In (fst (add_time_of_day_risk now reasons)) (nth 3 contribution_values []).
Proof.
  unfold add_time_of_day_risk.
  destruct ((0 <=? hour now)%Z && (hour now <? 5)%Z); pick_value.
Qed.

Lemma merchant_values (choice : string) (reasons : list reason) :
  In (fst (add_merchant_risk choice reasons)) (nth 4 contribution_values []).
Proof.
  unfold add_merchant_risk, MERCHANT_RISK. cbn [dict_get].
  repeat match goal with |- context [if ?b then _ else _] => destruct b end;
    pick_value.
Qed.

Lemma velocity_values (last : option Z) (now : Z) (reasons : list reason) :
  In (fst (add_velocity_risk last now reasons)) (nth 5 contribution_values []).
Proof.
  unfold add_velocity_risk. destruct last as [t |]; [| pick_value].
  destruct (now - t <=? 60000000)%Z; pick_value.
Qed.

Lemma location_jump_values (last region : option string) (reasons : list reason) :
  In (fst (add_location_jump_risk last region reasons))
     (nth 6 contribution_values []).
Proof.
  unfold add_location_jump_risk. destruct last as [r |]; [| pick_value].
  destruct (negb _); pick_value.
Qed.

Lemma behavioral_values (history : list history_entry) (amount : float)
  (merchant_label : string) (now : Z) (region : string) (reasons : list reason) :
  In (fst (add_behavioral_risk history amount merchant_label now region reasons))
     (nth 7 contribution_values []).
Proof.
  unfold add_behavioral_risk.
  destruct (analyze_spending_patterns history) as [p |]; [| pick_value].
  repeat match goal with |- context [if ?b then _ else _] => destruct b end;
    pick_value.
Qed.

(** The contribution of a component does not depend on the reasons
    collected before it. *)
Lemma contributions_ignore_reasons (s : session) (amount : float) (now : Z)
  (region : option string) (known_location : bool) (choice merchant_label : string)
  (r1 r2 r3 r4 r5 r6 r7 r8 : list reason) :
  [ fst (add_amount_zone_risk amount r1);
    fst (add_location_risk region r2);
    fst (add_unknown_location_risk known_location r3);
    fst (add_time_of_day_risk now r4);
    fst (add_merchant_risk choice r5);
    fst (add_velocity_risk (last_tx_time s) now r6);
    fst (add_location_jump_risk (last_region s) region r7);
    fst (add_behavioral_risk (spending_history s) amount merchant_label now
           (or_unknown region) r8) ]
  = [ fst (add_amount_zone_risk amount []);
      fst (add_location_risk region []);
      fst (add_unknown_location_risk known_location []);
      fst (add_time_of_day_risk now []);
      fst (add_merchant_risk choice []);
      fst (add_velocity_risk (last_tx_time s) now []);
      fst (add_location_jump_risk (last_region s) region []);
      fst (add_behavioral_risk (spending_history s) amount merchant_label now
             (or_unknown region) []) ].
Proof.
  repeat match goal with
         | |- _ :: _ = _ :: _ => apply (f_equal2 (@cons float))
         end; try reflexivity.
  - unfold add_amount_zone_risk.
    repeat match goal with |- context [if ?b then _ else _] => destruct b end;
      reflexivity.
  - unfold add_location_risk. destruct (negb _); reflexivity.
  - unfold add_unknown_location_risk. destruct (negb _); reflexivity.
  - unfold add_time_of_day_risk. destruct (_ && _); reflexivity.
  - unfold add_merchant_risk.
    destruct (match dict_get MERCHANT_RISK choice with Some v => v | None => _ end).
    reflexivity.
  - unfold add_velocity_risk. destruct (last_tx_time s); [| reflexivity].
    destruct (_ <=? _)%Z; reflexivity.
  - unfold add_location_jump_risk. destruct (last_region s); [| reflexivity].
    destruct (negb _); reflexivity.
  - unfold add_behavioral_risk.
    destruct (analyze_spending_patterns _); [| reflexivity].
    repeat match goal with |- context [if ?b then _ else _] => destruct b end;
      reflexivity.
Qed.

(** The calculation adds the contributions in the order of the components
    and clamps the sum. *)
Lemma risk_calculation_sum (s : session) (amount : float) (now : Z)
  (region : option string) (known_location : bool) (loc_reason : string)
  (choice merchant_label : string) :
  exists r1 r2 r3 r4 r5 r6 r7,
    fst (risk_calculation s amount now region known_location loc_reason
           choice merchant_label)
    = composite_score
        [ fst (add_amount_zone_risk amount []);
          fst (add_location_risk region r1);
          fst (add_unknown_location_risk known_location r2);
          fst (add_time_of_day_risk now r3);
          fst (add_merchant_risk choice r4);
          fst (add_velocity_risk (last_tx_time s) now r5);
          fst (add_location_jump_risk (last_region s) region r6);
          fst (add_behavioral_risk (spending_history s) amount merchant_label
                 now (or_unknown region) r7) ].
Proof.
  unfold risk_calculation.
  destruct (add_amount_zone_risk amount []) as [c1 r1] eqn:E1.
  destruct (add_location_risk region r1) as [c2 r2] eqn:E2.
  destruct (add_unknown_location_risk known_location r2) as [c3 r3] eqn:E3.
  destruct (add_time_of_day_risk now r3) as [c4 r4] eqn:E4.
  destruct (add_merchant_risk choice r4) as [c5 r5] eqn:E5.
  destruct (add_velocity_risk (last_tx_time s) now r5) as [c6 r6] eqn:E6.
  destruct (add_location_jump_risk (last_region s) region r6) as [c7 r7] eqn:E7.
  destruct (add_behavioral_risk (spending_history s) amount merchant_label now
              (or_unknown region) r7) as [c8 r8] eqn:E8.
  exists r1, r2, r3, r4, r5, r6, r7.
  rewrite E2, E3, E4, E5, E6, E7, E8. reflexivity.
Qed.

(** C2: the score of the risk calculation is the sum of the eight
    contributions clamped at 1; each contribution is at least 0; the score
    lies between 0 and 1 whichever components trigger. *)
Theorem risk_score_clamped (s : session) (amount : float) (now : Z)
  (region : option string) (known_location : bool) (loc_reason : string)
  (choice merchant_label : string) :
  let contributions :=
    [ fst (add_amount_zone_risk amount []);
      fst (add_location_risk region []);
      fst (add_unknown_location_risk known_location []);
      fst (add_time_of_day_risk now []);
      fst (add_merchant_risk choice []);
      fst (add_velocity_risk (last_tx_time s) now []);
      fst (add_location_jump_risk (last_region s) region []);
      fst (add_behavioral_risk (spending_history s) amount merchant_label now
             (or_unknown region) []) ] in
  let score :=
    fst (risk_calculation s amount now region known_location loc_reason
           choice merchant_label) in
  score = composite_score contributions /\
  Forall (fun c => (0 <=? c) = true) contributions /\
  (0 <=? score) = true /\ (score <=? 1) = true.
Proof.
  intros contributions score.
  assert (Hvalues : Forall2 (@In float) contributions contribution_values).
  { unfold contributions, contribution_values.
    repeat match goal with
           | |- Forall2 _ (_ :: _) _ => apply Forall2_cons
           | |- Forall2 _ [] _ => apply Forall2_nil
           end.
    - apply (amount_zone_values amount []).
    - apply (location_values region []).
    - apply (unknown_location_values known_location []).
    - apply (time_of_day_values now []).
    - apply (merchant_values choice []).
    - apply (velocity_values (last_tx_time s) now []).
    - apply (location_jump_values (last_region s) region []).
    - apply (behavioral_values (spending_history s) amount merchant_label now
               (or_unknown region) []). }
  assert (Hscore : score = composite_score contributions).
  { unfold score, contributions.
    destruct (risk_calculation_sum s amount now region known_location loc_reason
                choice merchant_label)
      as (r1 & r2 & r3 & r4 & r5 & r6 & r7 & H).
    rewrite H.
    rewrite (contributions_ignore_reasons s amount now region known_location
               choice merchant_label [] r1 r2 r3 r4 r5 r6 r7).
    reflexivity. }
  split; [exact Hscore |].
  split.
  - assert (Hall : all_choices (forallb (fun c => 0 <=? c)) contribution_values []
                   = true) by (vm_compute; reflexivity).
    pose proof (all_choices_sound _ _ [] contributions Hall Hvalues) as H.
    cbn [rev app] in H. rewrite forallb_forall in H.
    apply Forall_forall. exact H.
  - assert (Hall : all_choices (fun cs => in_unit_interval (composite_score cs))
                     contribution_values [] = true) by (vm_compute; reflexivity).
    pose proof (all_choices_sound _ _ [] contributions Hall Hvalues) as H.
    cbn [rev app] in H. rewrite <- Hscore in H.
    unfold in_unit_interval in H. apply andb_true_iff in H. exact H.
Qed.

(** *** Verification *)

Ltac io_run :=
  cbv [bind ret print input emit after datetime_now print_block_instructions
       stdin stdout clock ticks negb].

Ltac io_run_in H :=
  cbv [bind ret print input emit after datetime_now print_block_instructions
       stdin stdout clock ticks negb] in H.

Ltac same_output :=
  repeat rewrite <- app_assoc; cbn [app]; try reflexivity.

(** C6: in the full tier the challenges are the last name (compared
    without case), the date of birth, the CVV and the PIN, in that order.  The
    first answer that does not match ends the tier with a failure, and no
    further line is read nor question asked; the tier passes when, and only
    when, the four answers match. *)
Theorem full_verification_sequence (amount risk : float) (w : world) :
  ((amount >? 5000) || (risk >=? 0.90)) = true ->
  let tier := [Say VerificationRequired; Say TierFull] in
  (forall l1 rest,
      stdin w = l1 :: rest -> surname_matches l1 = false ->
      run_verification amount risk w
      = Ret false (after w rest (tier ++ [Ask EnterLastName; Say LastNameMismatch]))) /\
  (forall l1 l2 rest,
      stdin w = l1 :: l2 :: rest ->
      surname_matches l1 = true -> dob_matches l2 = false ->
      run_verification amount risk w
      = Ret false (after w rest
                     (tier ++ [Ask EnterLastName; Ask EnterDob; Say BirthdateMismatch]))) /\
  (forall l1 l2 l3 rest,
      stdin w = l1 :: l2 :: l3 :: rest ->
      surname_matches l1 = true -> dob_matches l2 = true -> cvv_matches l3 = false ->
      run_verification amount risk w
      = Ret false (after w rest
                     (tier ++ [Ask EnterLastName; Ask EnterDob; Ask EnterCvv;
                               Say CvvMismatch]))) /\
  (forall l1 l2 l3 l4 rest,
      stdin w = l1 :: l2 :: l3 :: l4 :: rest ->
      surname_matches l1 = true -> dob_matches l2 = true -> cvv_matches l3 = true ->
      run_verification amount risk w
      = Ret (pin_matches l4)
            (after w rest
               (tier ++ [Ask EnterLastName; Ask EnterDob; Ask EnterCvv; Ask EnterPin;
                         Say (if pin_matches l4 then VerificationPassedMsg
                              else PinIncorrect)]))) /\
  (forall w',
      run_verification amount risk w = Ret true w' ->
      exists l1 l2 l3 l4,
        stdin w = l1 :: l2 :: l3 :: l4 :: stdin w' /\
        surname_matches l1 = true /\ dob_matches l2 = true /\
        cvv_matches l3 = true /\ pin_matches l4 = true) /\
  surname_matches "WAHDAN" = true /\ surname_matches " wahdan " = true.
Proof.
  intros Hfull tier. subst tier.
  destruct w as [lines clk tk out].
  unfold run_verification, full_verification,
    surname_matches, dob_matches, cvv_matches, pin_matches.
  io_run. rewrite Hfull.
  repeat split.
  - intros l1 rest -> H1. rewrite H1. io_run. f_equal. f_equal. same_output.
  - intros l1 l2 rest -> H1 H2. rewrite H1. io_run. rewrite H2. io_run.
    f_equal. f_equal. same_output.
  - intros l1 l2 l3 rest -> H1 H2 H3. rewrite H1. io_run. rewrite H2. io_run.
    rewrite H3. io_run. f_equal. f_equal. same_output.
  - intros l1 l2 l3 l4 rest -> H1 H2 H3. rewrite H1. io_run. rewrite H2. io_run.
    rewrite H3. io_run.
    destruct (String.eqb (strip l4) CORRECT_PIN); io_run; f_equal; f_equal;
      same_output.
  - intros w' Hrun.
    destruct lines as [| l1 [| l2 [| l3 [| l4 rest]]]];
      repeat match type of Hrun with
             | context [String.eqb ?a ?b] =>
                 destruct (String.eqb a b) eqn:?; cbv beta iota in Hrun
             end;
      try discriminate.
    inversion Hrun; subst w'.
    exists l1, l2, l3, l4. repeat split; assumption.
Qed.



(** *** The session *)

Lemma never_blocked_emit (o : output) (w : world) :
  o <> Say CardPermanentlyBlocked -> never_blocked w -> never_blocked (emit o w).
Proof.
  unfold never_blocked, emit. cbn [stdout]. intros Ho Hw Hin.
  apply in_app_or in Hin. destruct Hin as [Hin | [Hin | []]]; [auto |].
  apply Ho. exact Hin.
Qed.

Lemma quietly_ret {A : Type} (a : A) (Q : A -> Prop) : Q a -> quietly (ret a) Q.
Proof. intros HQ w Hw. cbn. auto. Qed.

Lemma quietly_bind {A B : Type} (m : io A) (k : A -> io B)
  (P : A -> Prop) (Q : B -> Prop) :
  quietly m P -> (forall a, P a -> quietly (k a) Q) -> quietly (bind m k) Q.
Proof.
  intros Hm Hk w Hw. unfold bind. specialize (Hm w Hw).
  destruct (m w) as [a w' | w']; [| exact Hm].
  destruct Hm as [Hw' HP]. exact (Hk a HP w' Hw').
Qed.

Lemma quietly_weaken {A : Type} (m : io A) (P Q : A -> Prop) :
  quietly m P -> (forall a, P a -> Q a) -> quietly m Q.
Proof.
  intros Hm HPQ w Hw. specialize (Hm w Hw).
  destruct (m w); [destruct Hm; split; auto | exact Hm].
Qed.

Lemma quietly_print (m : message) (Q : unit -> Prop) :
  m <> CardPermanentlyBlocked -> Q tt -> quietly (print m) Q.
Proof.
  intros Hm HQ w Hw. unfold print. split; [| exact HQ].
  apply never_blocked_emit; [congruence | exact Hw].
Qed.

Lemma quietly_input (p : prompt) : quietly (input p) (fun _ => True).
Proof.
  intros w Hw. unfold input. destruct (stdin w) as [| line rest].
  - apply never_blocked_emit; [discriminate | exact Hw].
  - split; [| exact I].
    apply (never_blocked_emit (Ask p) w); [discriminate | exact Hw].
Qed.

Lemma quietly_now : quietly datetime_now (fun _ => True).
Proof. intros w Hw. unfold datetime_now. split; [exact Hw | exact I]. Qed.

Lemma quietly_read_amount : quietly read_amount (fun _ => True).
Proof.
  intros w Hw. unfold read_amount. generalize (stdin w) as lines.
  intros lines. revert w Hw.
  induction lines as [| amt_input rest IH]; intros w Hw; cbn [read_amount_from].
  - apply never_blocked_emit; [discriminate | exact Hw].
  - assert (Hasked :
      never_blocked {| stdin := rest; clock := clock w; ticks := ticks w;
                       stdout := stdout w ++ [Ask EnterAmount] |}).
    { apply (never_blocked_emit (Ask EnterAmount) w); [discriminate | exact Hw]. }
    destruct (float_of_string amt_input) as [amount |].
    + destruct (amount >? 0); [split; [exact Hasked | exact I] |].
      apply IH. apply never_blocked_emit; [discriminate | exact Hasked].
    + apply IH. apply never_blocked_emit; [discriminate | exact Hasked].
Qed.

Lemma quietly_ask_again : quietly ask_again (fun _ => True).
Proof.
  unfold ask_again. eapply quietly_bind; [apply quietly_input |].
  intros again _. apply quietly_ret. exact I.
Qed.

(** One step of a proof that a piece of the program is quiet. *)
Ltac quiet_step :=
  match goal with
  | |- quietly (ret _) _ => apply quietly_ret
  | |- quietly (print _) _ => apply quietly_print; [discriminate |]
  | |- quietly (bind (print _) _) _ =>
      eapply quietly_bind;
      [apply (quietly_print _ (fun _ => True)); [discriminate | exact I] | intros _ _]
  | |- quietly (bind (input _) _) _ =>
      eapply quietly_bind; [apply quietly_input | intros ? _]
  | |- quietly (bind ask_again _) _ =>
      eapply quietly_bind; [apply quietly_ask_again | intros ? _]
  | |- quietly (if ?b then _ else _) _ => destruct b
  end.

Lemma quietly_run_verification (amount risk : float) :
  quietly (run_verification amount risk) (fun _ => True).
Proof.
  unfold run_verification, full_verification, pin_plus_one_verification,
    pin_only_verification.
  repeat quiet_step; exact I.
Qed.

Lemma quietly_auto_approve (s : session) (amount : float) (now : Z) :
  session_ok Continue s -> quietly (auto_approve s amount now) exit_ok.
Proof.
  intros [Hpin Hrun]. destruct (Hrun eq_refl) as [Hle Hcard].
  unfold auto_approve. repeat quiet_step;
    (split; [exact Hpin | intros _; split; assumption]).
Qed.

Lemma quietly_failed_verification (s : session) (now : Z)
  (region : option string) (risk : float) (reasons : list reason) :
  session_ok Continue s -> quietly (failed_verification s now region risk reasons) exit_ok.
Proof.
  intros [Hpin Hrun]. destruct (Hrun eq_refl) as [Hle Hcard].
  unfold failed_verification. cbv zeta. cbn [pin_fails flagged_count card_blocked
    last_tx_time last_region spending_history].
  change (print_block_instructions "frozen") with (print CardFrozen).
  quiet_step.
  destruct (Z.eqb_spec (pin_fails s + 1) 3) as [H3 | H3];
    [| destruct (Z.eqb_spec (pin_fails s + 1) 5) as [H5 | H5];
       [| destruct (Z.geb_spec (pin_fails s + 1) 7) as [H7 | H7]; [lia |]]];
    repeat quiet_step;
    unfold exit_ok, session_ok, block_card; cbn [fst snd pin_fails card_blocked];
    (split; [lia | intros Hc; first [discriminate Hc | split; [lia | assumption]]]).
Qed.

Lemma quietly_final_decision (s : session) (amount : float) (now : Z)
  (region : option string) (merchant_label : string) (risk : float)
  (decision : string) (reasons : list reason) :
  session_ok Continue s ->
  quietly (final_decision s amount now region merchant_label risk decision reasons)
    exit_ok.
Proof.
  intros [Hpin Hrun]. destruct (Hrun eq_refl) as [Hle Hcard].
  unfold final_decision. cbv zeta.
  change (print_block_instructions "frozen") with (print CardFrozen).
  repeat quiet_step;
    unfold exit_ok, session_ok, block_card; cbn [fst snd pin_fails card_blocked];
    (split; [lia | intros Hc; first [discriminate Hc | split; [lia | assumption]]]).
Qed.

Lemma quietly_passed_verification (s : session) (amount : float) (now : Z)
  (region : option string) (merchant_label : string) (risk : float)
  (decision : string) (reasons : list reason) :
  session_ok Continue s ->
  quietly (passed_verification s amount now region merchant_label risk decision
             reasons) exit_ok.
Proof.
  intros [Hpin Hrun]. destruct (Hrun eq_refl) as [Hle Hcard].
  unfold passed_verification. apply quietly_final_decision.
  split; cbn [pin_fails card_blocked]; [lia | intros _; split; [lia | assumption]].
Qed.

Lemma quietly_transaction (s : session) :
  session_ok Continue s -> quietly (transaction s) exit_ok.
Proof.
  intros Hs. unfold transaction.
  destruct (card_blocked s) eqn:Hcard.
  { destruct Hs as [_ Hrun]. destruct (Hrun eq_refl) as [_ Hfalse]. congruence. }
  quiet_step.
  eapply quietly_bind; [apply quietly_read_amount | intros amount _].
  eapply quietly_bind; [apply quietly_now | intros now _].
  destruct (amount <? 150); [apply quietly_auto_approve; exact Hs |].
  quiet_step.
  destruct (validate_location a) as [[region known_location] loc_reason].
  quiet_step. quiet_step.
  destruct (risk_calculation _ _ _ _ _ _ _ _) as [risk reasons].
  unfold verify_and_decide.
  destruct (verification_required amount risk);
    [| apply quietly_final_decision; exact Hs].
  quiet_step.
  eapply quietly_bind; [apply quietly_run_verification | intros verified _].
  destruct verified; cbn [negb].
  - apply quietly_passed_verification; exact Hs.
  - apply quietly_failed_verification; exact Hs.
Qed.

Lemma step_ok (c : config) : config_ok c -> config_ok (step c).
Proof.
  destruct c as [s w | s w | w]; cbn [step]; [| auto | auto].
  intros [Hs Hw]. unfold run_iteration.
  pose proof (quietly_transaction s Hs w Hw) as H.
  destruct (transaction s w) as [[[] s'] w' | w']; cbn [config_ok];
    [destruct H; split; assumption | destruct H; split; assumption | exact H].
Qed.

Lemma steps_ok (n : nat) : forall c, config_ok c -> config_ok (steps n c).
Proof.
  induction n as [| n IH]; intros c Hc; cbn [steps]; [exact Hc |].
  apply IH. apply step_ok. exact Hc.
Qed.

(** C9: in every configuration a session reaches, [pin_fails] is at most 5
    (at most 4 while the loop goes on), so it never reaches 7, and the
    instructions of a permanent block, which only the branch
    [pin_fails >= 7] prints, are not in the output: a failure adds 1 to the
    counter, a success resets it, and the loop is left when it equals 5. *)
Theorem blocked_branch_unreachable (c : config) :
  reachable c ->
  match c with
  | Running s w =>
      (0 <= pin_fails s <= 4)%Z /\ card_blocked s = false /\
      ~ In (Say CardPermanentlyBlocked) (stdout w)
  | Exited s w =>
      (0 <= pin_fails s <= 5)%Z /\ ~ In (Say CardPermanentlyBlocked) (stdout w)
  | Crashed w => ~ In (Say CardPermanentlyBlocked) (stdout w)
  end.
Proof.
  intros (lines & clk & n & Hc).
  assert (Hok : config_ok c).
  { rewrite <- Hc. apply steps_ok. cbn. split.
    - split; cbn; [lia | intros _; split; [lia | reflexivity]].
    - unfold never_blocked. cbn. intros [H | []]. discriminate H. }
  destruct c as [s w | s w | w]; cbn in Hok.
  - destruct Hok as [[Hpin Hrun] Hw]. destruct (Hrun eq_refl) as [Hle Hcard].
    repeat split; try lia; assumption.
  - destruct Hok as [[Hpin _] Hw]. repeat split; try lia; assumption.
  - exact Hok.
Qed.

(** *** Escalation and counters *)

(** The branch of a failed verification, run: the result and the output for
    each value of the counter and each answer of the holder. *)
Lemma failed_verification_run (s : session) (now : Z) (region : option string)
  (risk : float) (reasons : list reason) (w : world) :
  let failed :=
    {| flagged_count := flagged_count s + 1;
       pin_fails := pin_fails s + 1;
       card_blocked := card_blocked s;
       last_tx_time := last_tx_time s;
       last_region := last_region s;
       spending_history := spending_history s |} in
  let moved_on :=
    {| flagged_count := flagged_count s + 1;
       pin_fails := pin_fails s + 1;
       card_blocked := card_blocked s;
       last_tx_time := Some now;
       last_region := Some (or_unknown region);
       spending_history := spending_history s |} in
  let declined :=
    Say (FraudResult risk "DECLINED (Failed Verification)"
           (reasons ++ [VerificationFailedDeclined])) in
  let warning :=
    if (pin_fails s + 1 =? 3)%Z then [Say FailedAttemptsWarning] else [] in
  failed_verification s now region risk reasons w
  = if (pin_fails s + 1 =? 5)%Z then
      Ret (Break, block_card failed) (after w (stdin w) [declined; Say CardFrozen])
    else if negb (pin_fails s + 1 =? 3)%Z && (pin_fails s + 1 >=? 7)%Z then
      Ret (Break, block_card failed)
          (after w (stdin w) [declined; Say CardPermanentlyBlocked])
    else
      match stdin w with
      | [] => EOFError (after w [] (declined :: warning ++ [Ask AnalyzeAnother]))
      | again :: rest =>
          Ret (if String.eqb (lower again) "yes" then (Continue, moved_on)
               else (Break, failed))
              (after w rest (declined :: warning ++ [Ask AnalyzeAnother]))
      end.
Proof.
  destruct w as [lines clk tk out].
  unfold failed_verification, ask_again. cbv zeta.
  cbn [pin_fails flagged_count card_blocked last_tx_time last_region
       spending_history].
  change (print_block_instructions "frozen") with (print CardFrozen).
  change (print_block_instructions "blocked") with (print CardPermanentlyBlocked).
  io_run.
  destruct (Z.eqb_spec (pin_fails s + 1) 3) as [H3 | H3].
  - rewrite H3. cbn [Z.eqb Pos.eqb andb].
    destruct lines as [| again rest]; [f_equal; f_equal; same_output |].
    destruct (String.eqb (lower again) "yes"); f_equal; f_equal; same_output.
  - destruct (pin_fails s + 1 =? 5)%Z; [f_equal; f_equal; same_output |].
    cbn [andb].
    destruct (pin_fails s + 1 >=? 7)%Z; [f_equal; f_equal; same_output |].
    destruct lines as [| again rest]; [f_equal; f_equal; same_output |].
    destruct (String.eqb (lower again) "yes"); f_equal; f_equal; same_output.
Qed.

(** C3: after a failed verification, a counter that now equals 3 brings
    the warning and nothing else: the card is not blocked by it, and the
    session goes on or ends with the holder's answer alone.  A counter that
    now equals 5 freezes the card: the frozen-card instructions are printed,
    [card_blocked] is set, the loop is left without reading another line, and
    no transaction runs afterwards. *)
Theorem escalation_on_failed_verification (s : session) (now : Z)
  (region : option string) (risk : float) (reasons : list reason) (w : world) :
  let failed :=
    {| flagged_count := flagged_count s + 1;
       pin_fails := pin_fails s + 1;
       card_blocked := card_blocked s;
       last_tx_time := last_tx_time s;
       last_region := last_region s;
       spending_history := spending_history s |} in
  let declined :=
    Say (FraudResult risk "DECLINED (Failed Verification)"
           (reasons ++ [VerificationFailedDeclined])) in
  (pin_fails failed = 3%Z ->
   forall again rest, stdin w = again :: rest ->
     exists c s',
       failed_verification s now region risk reasons w
       = Ret (c, s')
             (after w rest [declined; Say FailedAttemptsWarning; Ask AnalyzeAnother]) /\
       card_blocked s' = card_blocked s /\
       pin_fails s' = 3%Z /\
       (c = Continue <-> lower again = "yes"%string)) /\
  (pin_fails failed = 5%Z ->
   failed_verification s now region risk reasons w
   = Ret (Break, block_card failed) (after w (stdin w) [declined; Say CardFrozen]) /\
   card_blocked (block_card failed) = true /\
   (forall w', transaction (block_card failed) w' = Ret (Break, block_card failed) w') /\
   (forall n w',
       steps n (Exited (block_card failed) w') = Exited (block_card failed) w')).
Proof.
  intros failed declined. subst failed declined. cbn [pin_fails].
  split.
  - intros H3 again rest Hin.
    rewrite failed_verification_run, Hin, H3. cbn [Z.eqb Pos.eqb negb andb app].
    destruct (String.eqb_spec (lower again) "yes") as [Hyes | Hno].
    + eexists _, _. split; [reflexivity |]. cbn [card_blocked pin_fails].
      repeat split; auto.
    + eexists _, _. split; [reflexivity |]. cbn [card_blocked pin_fails].
      repeat split; auto; [discriminate | intros H; contradiction].
  - intros H5. rewrite failed_verification_run, H5. cbn [Z.eqb Pos.eqb].
    repeat split.
    intros n w'. induction n as [| n IH]; [reflexivity | exact IH].
Qed.

(** What a failed verification does to the session. *)
Lemma failed_verification_effect (s : session) (now : Z) (region : option string)
  (risk : float) (reasons : list reason) (w : world)
  (c : loop_exit) (s' : session) (w' : world) :
  failed_verification s now region risk reasons w = Ret (c, s') w' ->
  pin_fails s' = (pin_fails s + 1)%Z /\
  flagged_count s' = (flagged_count s + 1)%Z /\
  spending_history s' = spending_history s /\
  (c = Continue ->
   last_tx_time s' = Some now /\ last_region s' = Some (or_unknown region)) /\
  (c = Break ->
   last_tx_time s' = last_tx_time s /\ last_region s' = last_region s).
Proof.
  intros Hrun. rewrite failed_verification_run in Hrun.
  repeat match type of Hrun with
         | context [if ?b then _ else _] => destruct b
         | context [match stdin w with _ => _ end] => destruct (stdin w)
         end;
    inversion Hrun; subst; cbn; repeat split; auto; discriminate.
Qed.

(** What the final decision does to the session. *)
Lemma final_decision_effect (s : session) (amount : float) (now : Z)
  (region : option string) (merchant_label : string) (risk : float)
  (decision : string) (reasons : list reason) (w : world)
  (c : loop_exit) (s' : session) (w' : world) :
  final_decision s amount now region merchant_label risk decision reasons w
  = Ret (c, s') w' ->
  pin_fails s' = pin_fails s /\
  flagged_count s'
  = (if String.eqb decision "APPROVED" then flagged_count s
     else (flagged_count s + 1)%Z) /\
  spending_history s'
  = spending_history s ++
    [ {| h_amount := amount; h_merchant := merchant_label;
         h_hour := hour now; h_region := or_unknown region |} ] /\
  last_tx_time s' = Some now /\ last_region s' = Some (or_unknown region).
Proof.
  intros Hrun. destruct w as [lines clk tk out].
  unfold final_decision, ask_again in Hrun. cbv zeta in Hrun.
  change (print_block_instructions "frozen") with (print CardFrozen) in Hrun.
  cbn [pin_fails flagged_count card_blocked last_tx_time last_region
       spending_history] in Hrun.
  io_run_in Hrun.
  destruct (String.eqb decision "APPROVED");
    repeat match type of Hrun with
           | context [if ?b then _ else _] => destruct b
           | context [match ?l with [] => _ | _ :: _ => _ end] => destruct l
           end;
    inversion Hrun; subst; cbn; auto.
Qed.

(** The decision is APPROVED exactly for a score below 0.50. *)
Lemma decide_approved (risk : float) :
  String.eqb (decide risk) "APPROVED" = (risk <? 0.50).
Proof.
  unfold decide. destruct (risk <? 0.50); [reflexivity |].
  repeat match goal with
         | |- context [if ?b then _ else _] => destruct b
         end; reflexivity.
Qed.

(** The loop body from the verification on, once verification is required
    and [run_verification] has returned. *)
Lemma verify_and_decide_verified (s : session) (amount : float) (now : Z)
  (region : option string) (merchant_label : string) (risk : float)
  (decision : string) (reasons : list reason) (w w1 : world) (verified : bool) :
  verification_required amount risk = true ->
  run_verification amount risk (emit (Say (VerificationTriggered risk amount)) w)
  = Ret verified w1 ->
  verify_and_decide s amount now region merchant_label risk decision reasons w
  = if verified
    then passed_verification s amount now region merchant_label risk decision
           reasons w1
    else failed_verification s now region risk reasons w1.
Proof.
  intros Hreq Hver. unfold verify_and_decide. rewrite Hreq.
  unfold bind at 1. unfold print at 1. unfold bind at 1. rewrite Hver.
  destruct verified; reflexivity.
Qed.

(** C4, as the program has it: when verification runs and fails,
    [pin_fails] and [flagged_count] each grow by exactly 1.  When it runs and
    passes, [pin_fails] becomes 0, and [flagged_count] stays as it was when
    the decision is APPROVED, that is when the score is below 0.50, and grows
    by 1 for any other decision. *)
Theorem verification_counters (s : session) (amount : float) (now : Z)
  (region : option string) (merchant_label : string) (risk : float)
  (reasons : list reason) (w w1 w' : world) (verified : bool)
  (c : loop_exit) (s' : session) :
  verification_required amount risk = true ->
  run_verification amount risk (emit (Say (VerificationTriggered risk amount)) w)
  = Ret verified w1 ->
  verify_and_decide s amount now region merchant_label risk (decide risk) reasons w
  = Ret (c, s') w' ->
  if verified
  then pin_fails s' = 0%Z /\
       flagged_count s'
       = (if risk <? 0.50 then flagged_count s else (flagged_count s + 1)%Z)
  else pin_fails s' = (pin_fails s + 1)%Z /\
       flagged_count s' = (flagged_count s + 1)%Z.
Proof.
  intros Hreq Hver Hrun.
  rewrite (verify_and_decide_verified _ _ _ _ _ _ _ _ _ _ _ Hreq Hver) in Hrun.
  destruct verified.
  - unfold passed_verification in Hrun.
    apply final_decision_effect in Hrun. cbn [pin_fails flagged_count] in Hrun.
    rewrite decide_approved in Hrun.
    destruct Hrun as (Hpin & Hflag & _). split; assumption.
  - apply failed_verification_effect in Hrun.
    destruct Hrun as (Hpin & Hflag & _). split; assumption.
Qed.

(** *** History and the last transaction *)

(** C10, as the program has it: a transaction whose verification fails
    appends nothing to [spending_history]; [last_tx_time] and [last_region]
    take the transaction's time and region when the session goes on to
    another transaction, and stay as they were when it ends there.  An
    auto-approved transaction, and a transaction that reaches the final
    decision (no verification was required, or it passed), each append exactly
    one entry. *)
Theorem history_and_last_transaction (s : session) (amount : float) (now : Z)
  (region : option string) (merchant_label : string) (risk : float)
  (decision : string) (reasons : list reason) (w : world)
  (c : loop_exit) (s' : session) (w' : world) :
  (forall w1,
      verification_required amount risk = true ->
      run_verification amount risk (emit (Say (VerificationTriggered risk amount)) w)
      = Ret false w1 ->
      verify_and_decide s amount now region merchant_label risk decision reasons w
      = Ret (c, s') w' ->
      spending_history s' = spending_history s /\
      (c = Continue ->
       last_tx_time s' = Some now /\ last_region s' = Some (or_unknown region)) /\
      (c = Break ->
       last_tx_time s' = last_tx_time s /\ last_region s' = last_region s)) /\
  (auto_approve s amount now w = Ret (c, s') w' ->
   spending_history s'
   = spending_history s ++
     [ {| h_amount := amount; h_merchant := "Low-Value Auto-Approved";
          h_hour := hour now; h_region := "ab" |} ] /\
   last_tx_time s' = Some now /\ last_region s' = Some "ab"%string) /\
  (verification_required amount risk = false \/
   (exists w1,
       run_verification amount risk
         (emit (Say (VerificationTriggered risk amount)) w) = Ret true w1) ->
   verify_and_decide s amount now region merchant_label risk decision reasons w
   = Ret (c, s') w' ->
   spending_history s'
   = spending_history s ++
     [ {| h_amount := amount; h_merchant := merchant_label;
          h_hour := hour now; h_region := or_unknown region |} ] /\
   last_tx_time s' = Some now /\ last_region s' = Some (or_unknown region)).
Proof.
  repeat apply conj.
  - intros w1 Hreq Hver Hrun.
    rewrite (verify_and_decide_verified _ _ _ _ _ _ _ _ _ _ _ Hreq Hver) in Hrun.
    apply failed_verification_effect in Hrun.
    destruct Hrun as (_ & _ & Hhistory & Hmoved & Hkept). auto.
  - intros Hrun. destruct w as [lines clk tk out].
    unfold auto_approve, ask_again in Hrun. io_run_in Hrun.
    destruct lines as [| again rest]; [discriminate |].
    destruct (String.eqb (lower again) "yes");
      inversion Hrun; subst; cbn; auto.
  - intros Hprocessed Hrun.
    assert (Hfinal : exists s0 w0 reasons0,
               spending_history s0 = spending_history s /\
               final_decision s0 amount now region merchant_label risk decision
                 reasons0 w0 = Ret (c, s') w').
    { destruct (verification_required amount risk) eqn:Hreq.
      - destruct Hprocessed as [Hno | [w1 Hver]]; [discriminate |].
        rewrite (verify_and_decide_verified _ _ _ _ _ _ _ _ _ _ _ Hreq Hver) in Hrun.
        unfold passed_verification in Hrun. eexists _, _, _.
        split; [| exact Hrun]. reflexivity.
      - unfold verify_and_decide in Hrun. rewrite Hreq in Hrun.
        exists s, w, reasons. split; [reflexivity | exact Hrun]. }
    destruct Hfinal as (s0 & w0 & reasons0 & Hsame & Hfinal).
    apply final_decision_effect in Hfinal. rewrite Hsame in Hfinal.
    destruct Hfinal as (_ & _ & Hhistory & Htime & Hregion). auto.
Qed.

(** *** The amount prompt *)

Lemma read_amount_from_run (lines : list string) :
  forall w,
    match read_amount_from lines w with
    | Ret amount w' =>
        exists rejected line rest,
          lines = rejected ++ line :: rest /\
          forallb rejected_amount rejected = true /\
          float_of_string line = Some amount /\ (amount >? 0) = true /\
          w' = after w rest (flat_map rejection rejected ++ [Ask EnterAmount])
    | EOFError w' =>
        forallb rejected_amount lines = true /\
        w' = after w (match lines with [] => stdin w | _ => [] end)
               (flat_map rejection lines ++ [Ask EnterAmount])
    end.
Proof.
  induction lines as [| amt_input rest IH]; intros w; cbn [read_amount_from].
  - split; reflexivity.
  - set (asked := {| stdin := rest; clock := clock w; ticks := ticks w;
                     stdout := stdout w ++ [Ask EnterAmount] |}).
    assert (Hnext : forall m,
      (m = match float_of_string amt_input with
           | Some _ => AmountMustBePositive
           | None => InvalidNumber
           end) ->
      rejected_amount amt_input = true ->
      match read_amount_from rest (emit (Say m) asked) with
      | Ret amount w' =>
          exists rejected line rest',
            amt_input :: rest = rejected ++ line :: rest' /\
            forallb rejected_amount rejected = true /\
            float_of_string line = Some amount /\ (amount >? 0) = true /\
            w' = after w rest' (flat_map rejection rejected ++ [Ask EnterAmount])
      | EOFError w' =>
          forallb rejected_amount (amt_input :: rest) = true /\
          w' = after w [] (flat_map rejection (amt_input :: rest) ++ [Ask EnterAmount])
      end).
    { intros m Hm Hrej. specialize (IH (emit (Say m) asked)).
      destruct (read_amount_from rest (emit (Say m) asked)) as [amount w' | w'].
      - destruct IH as (rejected & line & rest' & Hlines & Hall & Hparse & Hpos & Hw).
        exists (amt_input :: rejected), line, rest'.
        repeat split; try assumption.
        + rewrite Hlines. reflexivity.
        + cbn [forallb]. rewrite Hrej, Hall. reflexivity.
        + rewrite Hw. unfold after, emit, asked, rejection.
          cbn [stdin stdout clock ticks flat_map app]. f_equal.
          rewrite <- Hm. repeat rewrite <- app_assoc. reflexivity.
      - destruct IH as (Hall & Hw). split.
        + cbn [forallb]. rewrite Hrej, Hall. reflexivity.
        + rewrite Hw. unfold after, emit, asked, rejection.
          cbn [stdin stdout clock ticks flat_map app]. f_equal.
          * destruct rest; reflexivity.
          * rewrite <- Hm. repeat rewrite <- app_assoc. reflexivity. }
    unfold rejected_amount in Hnext.
    destruct (float_of_string amt_input) as [amount |] eqn:Hparse.
    + destruct (amount >? 0) eqn:Hpos.
      * exists [], amt_input, rest. repeat split; try assumption; reflexivity.
      * apply Hnext; reflexivity.
    + apply Hnext; reflexivity.
Qed.

(** X1: the amount prompt returns the first line that parses as a number
    above 0 (so never 0, a negative number or a NaN).  Every line before it
    was turned down with its message and a new prompt; when no line is left
    the end of the input is raised, all lines having been turned down. *)
Theorem read_amount_first_positive (w : world) :
  match read_amount w with
  | Ret amount w' =>
      exists rejected line,
        stdin w = rejected ++ line :: stdin w' /\
        forallb rejected_amount rejected = true /\
        float_of_string line = Some amount /\ (amount >? 0) = true /\
        w' = after w (stdin w') (flat_map rejection rejected ++ [Ask EnterAmount])
  | EOFError w' =>
      forallb rejected_amount (stdin w) = true /\
      w' = after w [] (flat_map rejection (stdin w) ++ [Ask EnterAmount])
  end.
Proof.
  unfold read_amount. pose proof (read_amount_from_run (stdin w) w) as H.
  destruct (read_amount_from (stdin w) w) as [amount w' | w'].
  - destruct H as (rejected & line & rest & Hlines & Hall & Hparse & Hpos & Hw).
    exists rejected, line. subst w'. cbn [after stdin]. auto.
  - destruct H as (Hall & Hw). split; [exact Hall |].
    rewrite Hw. destruct (stdin w) eqn:Hin; [| reflexivity].
    reflexivity.
Qed.

(** *** One transaction, by its branch *)

Lemma auto_approve_effect (s : session) (amount : float) (now : Z) (w : world)
  (c : loop_exit) (s' : session) (w' : world) :
  auto_approve s amount now w = Ret (c, s') w' ->
  s' = {| flagged_count := flagged_count s;
          pin_fails := pin_fails s;
          card_blocked := card_blocked s;
          last_tx_time := Some now;
          last_region := Some "ab"%string;
          spending_history :=
            spending_history s ++
            [ {| h_amount := amount; h_merchant := "Low-Value Auto-Approved";
                 h_hour := hour now; h_region := "ab" |} ] |}.
Proof.
  intros Hrun. destruct w as [lines clk tk out].
  unfold auto_approve, ask_again in Hrun. io_run_in Hrun.
  destruct lines as [| again rest]; [discriminate |].
  destruct (String.eqb (lower again) "yes"); inversion Hrun; reflexivity.
Qed.

Lemma failed_verification_exit (s : session) (now : Z) (region : option string)
  (risk : float) (reasons : list reason) (w : world)
  (c : loop_exit) (s' : session) (w' : world) :
  failed_verification s now region risk reasons w = Ret (c, s') w' ->
  (c = Continue ->
   (pin_fails s + 1 <> 5)%Z /\ (pin_fails s + 1 < 7)%Z /\
   card_blocked s' = card_blocked s) /\
  (card_blocked s' = true ->
   card_blocked s = true \/ (pin_fails s + 1 = 5)%Z \/ (7 <= pin_fails s + 1)%Z).
Proof.
  intros Hrun. rewrite failed_verification_run in Hrun.
  destruct (Z.eqb_spec (pin_fails s + 1) 5) as [H5 | H5].
  { inversion Hrun; subst. split; [discriminate | auto]. }
  destruct (Z.eqb_spec (pin_fails s + 1) 3) as [H3 | H3]; cbn [negb andb] in Hrun.
  - destruct (stdin w) as [| again rest]; [discriminate |].
    destruct (String.eqb (lower again) "yes"); inversion Hrun; subst;
      cbn [card_blocked]; (split; [intros _; repeat split; lia || auto | auto]).
  - destruct (Z.geb_spec (pin_fails s + 1) 7) as [H7 | H7].
    { inversion Hrun; subst. split; [discriminate | auto]. }
    destruct (stdin w) as [| again rest]; [discriminate |].
    destruct (String.eqb (lower again) "yes"); inversion Hrun; subst;
      cbn [card_blocked]; (split; [intros _; repeat split; lia || auto | auto]).
Qed.

Lemma final_decision_exit (s : session) (amount : float) (now : Z)
  (region : option string) (merchant_label : string) (risk : float)
  (decision : string) (reasons : list reason) (w : world)
  (c : loop_exit) (s' : session) (w' : world) :
  final_decision s amount now region merchant_label risk decision reasons w
  = Ret (c, s') w' ->
  (c = Continue -> (flagged_count s' < 5)%Z /\ card_blocked s' = card_blocked s) /\
  (card_blocked s' = true -> card_blocked s = true \/ (5 <= flagged_count s')%Z).
Proof.
  intros Hrun. destruct w as [lines clk tk out].
  unfold final_decision, ask_again in Hrun. cbv zeta in Hrun.
  change (print_block_instructions "frozen") with (print CardFrozen) in Hrun.
  cbn [pin_fails flagged_count card_blocked last_tx_time last_region
       spending_history] in Hrun.
  io_run_in Hrun.
  match type of Hrun with
  | context [(?f >=? 5)%Z] => destruct (Z.geb_spec f 5) as [Hge | Hlt]
  end.
  - inversion Hrun; subst. cbn [flagged_count card_blocked block_card].
    split; [discriminate | auto].
  - destruct lines as [| again rest]; [discriminate |].
    destruct (String.eqb (lower again) "yes"); inversion Hrun; subst;
      cbn [flagged_count card_blocked]; (split; [intros _; split; [lia | reflexivity] | auto]).
Qed.

(** The branches of the loop body: an auto-approval, or the risk
    calculation followed by the verification logic. *)
Lemma transaction_outcome (s : session) (w : world)
  (c : loop_exit) (s' : session) (w' : world) :
  card_blocked s = false ->
  transaction s w = Ret (c, s') w' ->
  exists amount now,
    (amount >? 0) = true /\
    (((amount <? 150) = true /\
      exists w0, auto_approve s amount now w0 = Ret (c, s') w') \/
     ((amount <? 150) = false /\
      exists region known_location loc_reason choice merchant_label w0,
        verify_and_decide s amount now region merchant_label
          (fst (risk_calculation s amount now region known_location loc_reason
                  choice merchant_label))
          (decide (fst (risk_calculation s amount now region known_location
                          loc_reason choice merchant_label)))
          (snd (risk_calculation s amount now region known_location loc_reason
                  choice merchant_label)) w0
        = Ret (c, s') w')).
Proof.
  intros Hcard Hrun. unfold transaction in Hrun. rewrite Hcard in Hrun.
  unfold bind at 1 in Hrun. unfold print at 1 in Hrun.
  unfold bind at 1 in Hrun.
  unfold read_amount at 1 in Hrun.
  pose proof (read_amount_from_run (stdin (emit (Say NewTransaction) w))
                (emit (Say NewTransaction) w)) as Hamount.
  destruct (read_amount_from (stdin (emit (Say NewTransaction) w))
              (emit (Say NewTransaction) w)) as [amount w1 |];
    [| discriminate].
  destruct Hamount as (_ & _ & _ & _ & _ & _ & Hpos & _).
  unfold bind at 1 in Hrun. unfold datetime_now at 1 in Hrun.
  match type of Hrun with
  | context [clock ?x ?y] => set (now := clock x y) in *
  end.
  exists amount, now. split; [exact Hpos |].
  destruct (amount <? 150).
  - left. split; [reflexivity |]. eexists. exact Hrun.
  - right. split; [reflexivity |].
    unfold bind at 1 in Hrun.
    match type of Hrun with
    | context [input EnterLocation ?x] =>
        destruct (input EnterLocation x) as [location w2 |]; [| discriminate]
    end.
    destruct (validate_location location) as [[region known_location] loc_reason].
    unfold bind at 1 in Hrun. unfold print at 1 in Hrun.
    unfold bind at 1 in Hrun.
    match type of Hrun with
    | context [input ChooseMerchant ?x] =>
        destruct (input ChooseMerchant x) as [choice w3 |]; [| discriminate]
    end.
    exists region, known_location, loc_reason.
    match type of Hrun with
    | context [risk_calculation _ _ _ _ _ _ ?ch ?lb] => exists ch, lb
    end.
    destruct (risk_calculation _ _ _ _ _ _ _ _) as [risk reasons].
    eexists. exact Hrun.
Qed.

Lemma or_unknown_not_empty (x : option string) : or_unknown x <> ""%string.
Proof.
  unfold or_unknown. destruct x as [r |]; [| discriminate].
  destruct (String.eqb_spec r ""); [discriminate | assumption].
Qed.

Lemma hour_range (t : Z) : (0 <= hour t < 24)%Z.
Proof. unfold hour. apply Z.mod_pos_bound. lia. Qed.

(** From the verification logic on, the loop body ends in the branch of a
    failed verification or in the final decision, which a passed
    verification enters with [pin_fails] reset. *)
Lemma verify_and_decide_outcome (s : session) (amount : float) (now : Z)
  (region : option string) (merchant_label : string) (risk : float)
  (decision : string) (reasons : list reason) (w : world)
  (c : loop_exit) (s' : session) (w' : world) :
  verify_and_decide s amount now region merchant_label risk decision reasons w
  = Ret (c, s') w' ->
  (exists w1, failed_verification s now region risk reasons w1 = Ret (c, s') w') \/
  (exists s0 reasons0 w1,
      flagged_count s0 = flagged_count s /\
      (pin_fails s0 = pin_fails s \/ pin_fails s0 = 0%Z) /\
      card_blocked s0 = card_blocked s /\
      spending_history s0 = spending_history s /\
      final_decision s0 amount now region merchant_label risk decision reasons0 w1
      = Ret (c, s') w').
Proof.
  intros Hrun. unfold verify_and_decide in Hrun.
  destruct (verification_required amount risk).
  - unfold bind at 1 in Hrun. unfold print at 1 in Hrun.
    unfold bind at 1 in Hrun.
    destruct (run_verification amount risk _) as [verified w1 |]; [| discriminate].
    destruct verified; cbn [negb] in Hrun.
    + right. unfold passed_verification in Hrun.
      match type of Hrun with
      | final_decision ?s0 _ _ _ _ _ _ ?r0 _ = _ => exists s0, r0, w1
      end.
      repeat split; cbn; auto.
    + left. exists w1. exact Hrun.
  - right. exists s, reasons, w. repeat split; auto.
Qed.

(** What one run of the loop body does to the counters and the history:
    a failed verification, an auto-approval, or a final decision. *)
Lemma transaction_effect (s : session) (w : world)
  (c : loop_exit) (s' : session) (w' : world) :
  card_blocked s = false ->
  transaction s w = Ret (c, s') w' ->
  ((pin_fails s' = pin_fails s + 1 /\ flagged_count s' = flagged_count s + 1 /\
    spending_history s' = spending_history s /\
    (c = Continue -> pin_fails s' <> 5 /\ pin_fails s' < 7) /\
    (card_blocked s' = true -> pin_fails s' = 5 \/ 7 <= pin_fails s')) \/
   (pin_fails s' = pin_fails s /\ flagged_count s' = flagged_count s /\
    card_blocked s' = false /\
    exists e, entry_ok e /\ spending_history s' = spending_history s ++ [e]) \/
   ((pin_fails s' = pin_fails s \/ pin_fails s' = 0) /\
    flagged_count s <= flagged_count s' <= flagged_count s + 1 /\
    (c = Continue -> flagged_count s' < 5) /\
    (card_blocked s' = true -> 5 <= flagged_count s') /\
    exists e, entry_ok e /\ spending_history s' = spending_history s ++ [e]))%Z /\
  (c = Continue -> card_blocked s' = false).
Proof.
  intros Hcard Hrun.
  destruct (transaction_outcome s w c s' w' Hcard Hrun)
    as (amount & now & Hpos & [[_ [w0 Hauto]] | [_ Hfull]]).
  - apply auto_approve_effect in Hauto. subst s'.
    cbn [pin_fails flagged_count card_blocked spending_history].
    split; [| intros _; exact Hcard].
    right. left.
    split; [reflexivity |]. split; [reflexivity |]. split; [exact Hcard |].
    eexists. split; [| reflexivity].
    unfold entry_ok. cbn [h_amount h_hour h_region].
    split; [exact Hpos |]. split; [apply hour_range | discriminate].
  - destruct Hfull as (region & known & loc_reason & choice & label & w0 & Hfull).
    apply verify_and_decide_outcome in Hfull.
    destruct Hfull as [[w1 Hfailed] | (s0 & reasons0 & w1 & Hf & Hp & Hb & Hh & Hfinal)].
    + pose proof (failed_verification_exit _ _ _ _ _ _ _ _ _ Hfailed) as [Hgo Hstop].
      apply failed_verification_effect in Hfailed.
      destruct Hfailed as (Hpin & Hflag & Hhistory & _ & _).
      split.
      * left.
        split; [exact Hpin |]. split; [exact Hflag |]. split; [exact Hhistory |].
        split.
        -- intros Hc. destruct (Hgo Hc) as (H5 & H7 & _). lia.
        -- intros Hblocked. destruct (Hstop Hblocked) as [H | [H | H]];
             [congruence | lia | lia].
      * intros Hc. destruct (Hgo Hc) as (_ & _ & Hsame). congruence.
    + pose proof (final_decision_exit _ _ _ _ _ _ _ _ _ _ _ _ Hfinal) as [Hgo Hstop].
      apply final_decision_effect in Hfinal.
      destruct Hfinal as (Hpin & Hflag & Hhistory & _ & _).
      split.
      * right. right.
        split; [destruct Hp as [Hp | Hp]; [left | right]; congruence |].
        split; [rewrite Hflag, Hf; destruct (String.eqb _ "APPROVED"); lia |].
        split; [intros Hc; apply (Hgo Hc) |].
        split.
        -- intros Hblocked. destruct (Hstop Hblocked) as [H | H];
             [congruence | exact H].
        -- eexists. split; [| rewrite Hhistory, Hh; reflexivity].
           unfold entry_ok. cbn [h_amount h_hour h_region].
           split; [exact Hpos |]. split; [apply hour_range |].
           apply or_unknown_not_empty.
      * intros Hc. destruct (Hgo Hc) as (_ & Hsame). congruence.
Qed.

(** *** The counters along a session *)

Lemma step_counters_ok (c : config) : counters_ok c -> counters_ok (step c).
Proof.
  destruct c as [s w | s w | w]; cbn [step]; [| auto | auto].
  intros (Hcard & Hpin & Hflag). unfold run_iteration.
  destruct (transaction s w) as [[c s'] w' |] eqn:Hrun; [| exact I].
  destruct (transaction_effect s w c s' w' Hcard Hrun) as [Heffect Hgo].
  destruct c; cbn [counters_ok].
  - specialize (Hgo eq_refl).
    destruct Heffect as [(Hp & Hf & _ & Hc & _) | [(Hp & Hf & _) | (Hp & Hf & Hc & _)]].
    + destruct (Hc eq_refl). repeat split; try assumption; lia.
    + repeat split; try assumption; lia.
    + specialize (Hc eq_refl). repeat split; try assumption; lia.
  - destruct Heffect as [(Hp & Hf & _ & _ & Hb) | [(Hp & Hf & Hb & _) | (Hp & Hf & _ & Hb & _)]].
    + repeat split; try lia. intros Hblocked. specialize (Hb Hblocked). lia.
    + repeat split; try lia. intros Hblocked. congruence.
    + repeat split; try lia. exact Hb.
Qed.

Lemma steps_counters_ok (n : nat) :
  forall c, counters_ok c -> counters_ok (steps n c).
Proof.
  induction n as [| n IH]; intros c Hc; cbn [steps]; [exact Hc |].
  apply IH. apply step_counters_ok. exact Hc.
Qed.

Lemma reachable_counters_ok (c : config) : reachable c -> counters_ok c.
Proof.
  intros (lines & clk & n & Hc). rewrite <- Hc. apply steps_counters_ok.
  cbn. repeat split; lia.
Qed.

(** X2: [flagged_count] stays within reach of [pin_fails].  While the
    loop goes on it is at least [pin_fails] and at most [pin_fails + 4], hence
    at most 8; once the loop is left it is at most 9. *)
Theorem flagged_count_bounded (c : config) :
  reachable c ->
  match c with
  | Running s _ =>
      (0 <= pin_fails s <= flagged_count s)%Z /\
      (flagged_count s <= pin_fails s + 4)%Z /\ (flagged_count s <= 8)%Z
  | Exited s _ => (0 <= pin_fails s <= flagged_count s)%Z /\ (flagged_count s <= 9)%Z
  | Crashed _ => True
  end.
Proof.
  intros Hc. apply reachable_counters_ok in Hc.
  destruct c as [s w | s w | w]; cbn in Hc; [| | exact I].
  - destruct Hc as (_ & Hpin & Hflag). lia.
  - destruct Hc as (Hpin & Hflag & _). lia.
Qed.

(** X3: the card is frozen only after five flagged events.  At the head of
    the loop the card is not blocked; when the loop is left with the card
    blocked, [flagged_count] is at least 5. *)
Theorem frozen_only_after_five_flags (c : config) :
  reachable c ->
  match c with
  | Running s _ => card_blocked s = false
  | Exited s _ => card_blocked s = true -> (5 <= flagged_count s)%Z
  | Crashed _ => True
  end.
Proof.
  intros Hc. apply reachable_counters_ok in Hc.
  destruct c as [s w | s w | w]; cbn in Hc; [| | exact I].
  - destruct Hc as (Hcard & _). exact Hcard.
  - destruct Hc as (_ & _ & Hblocked). exact Hblocked.
Qed.

(** X4: one run of the loop body counts a transaction at most once: it
    leaves [flagged_count] as it was or adds 1 to it, also when a declined
    transaction had a flagged score, and never lowers it; [pin_fails] grows by
    1, stays, or is reset to 0. *)
Theorem transaction_counts_once (s : session) (w : world)
  (c : loop_exit) (s' : session) (w' : world) :
  transaction s w = Ret (c, s') w' ->
  (flagged_count s <= flagged_count s' <= flagged_count s + 1)%Z /\
  (pin_fails s' = pin_fails s + 1 \/ pin_fails s' = pin_fails s \/ pin_fails s' = 0)%Z.
Proof.
  intros Hrun. destruct (card_blocked s) eqn:Hcard.
  - unfold transaction in Hrun. rewrite Hcard in Hrun.
    inversion Hrun; subst. split; [lia | auto].
  - destruct (transaction_effect s w c s' w' Hcard Hrun) as [Heffect _].
    destruct Heffect as [(Hp & Hf & _) | [(Hp & Hf & _) | (Hp & Hf & _)]].
    + split; [lia | auto].
    + split; [lia | auto].
    + split; [lia | destruct Hp; auto].
Qed.

(** *** The history along a session *)

Lemma step_history (c : config) :
  match c, step c with
  | Running s _, Running s' _ | Running s _, Exited s' _ =>
      exists l, spending_history s' = spending_history s ++ l /\
                (List.length l <= 1)%nat /\ Forall entry_ok l
  | _, _ => True
  end.
Proof.
  destruct c as [s w | s w | w]; cbn [step]; [| exact I | exact I].
  unfold run_iteration.
  destruct (transaction s w) as [[c s'] w' |] eqn:Hrun; [| exact I].
  assert (H : exists l, spending_history s' = spending_history s ++ l /\
                        (List.length l <= 1)%nat /\ Forall entry_ok l).
  { destruct (card_blocked s) eqn:Hcard.
    - unfold transaction in Hrun. rewrite Hcard in Hrun. inversion Hrun; subst.
      exists []. rewrite app_nil_r.
      split; [reflexivity |]. split; [cbn; lia | constructor].
    - destruct (transaction_effect s w c s' w' Hcard Hrun) as [Heffect _].
      destruct Heffect as [(_ & _ & Hh & _) | [(_ & _ & _ & e & He & Hh)
                                              | (_ & _ & _ & _ & e & He & Hh)]].
      + exists []. rewrite app_nil_r.
        split; [exact Hh |]. split; [cbn; lia | constructor].
      + exists [e].
        split; [exact Hh |]. split; [cbn; lia | constructor; [exact He | constructor]].
      + exists [e].
        split; [exact Hh |]. split; [cbn; lia | constructor; [exact He | constructor]]. }
  destruct c; exact H.
Qed.

(** X5: the history is append-only.  After [n] runs of the loop body the
    history is the one before followed by at most [n] new entries, and each
    new entry has a positive amount, an hour within 0..23 and a region that is
    not empty. *)
Theorem history_append_only (n : nat) (s : session) (w : world) :
  match steps n (Running s w) with
  | Running s' _ | Exited s' _ =>
      exists l, spending_history s' = spending_history s ++ l /\
                (List.length l <= n)%nat /\ Forall entry_ok l
  | Crashed _ => True
  end.
Proof.
  revert s w. induction n as [| n IH]; intros s w.
  - cbn. exists []. rewrite app_nil_r.
    split; [reflexivity |]. split; [cbn; lia | constructor].
  - cbn [steps]. generalize (step_history (Running s w)).
    destruct (step (Running s w)) as [s1 w1 | s1 w1 | w1]; intros Hstep.
    + destruct Hstep as (l1 & Hh1 & Hlen1 & Hok1).
      specialize (IH s1 w1).
      destruct (steps n (Running s1 w1)) as [s' w' | s' w' | w']; [| | exact I];
        destruct IH as (l & Hh & Hlen & Hok);
        exists (l1 ++ l); rewrite Hh, Hh1, app_assoc;
        (split; [reflexivity |]; split; [rewrite length_app; lia | apply Forall_app; auto]).
    + destruct Hstep as (l1 & Hh1 & Hlen1 & Hok1).
      assert (Hfix : steps n (Exited s1 w1) = Exited s1 w1)
        by (clear; induction n; [reflexivity | assumption]).
      rewrite Hfix. exists l1. split; [exact Hh1 |]. split; [lia | exact Hok1].
    + assert (Hfix : steps n (Crashed w1) = Crashed w1)
        by (clear; induction n; [reflexivity | assumption]).
      rewrite Hfix. exact I.
Qed.

(** *** The end of a session *)

Lemma takes_ret {A : Type} (a : A) : takes 0 (ret a).
Proof. intros w. cbn. lia. Qed.

Lemma takes_bind {A B : Type} (a b : nat) (m : io A) (k : A -> io B) :
  takes a m -> (forall x, takes b (k x)) -> takes (a + b) (bind m k).
Proof.
  intros Hm Hk w. unfold bind. specialize (Hm w).
  destruct (m w) as [x w1 |]; [| exact I].
  specialize (Hk x w1). destruct (k x w1); [lia | exact I].
Qed.

Lemma takes_print (m : message) : takes 0 (print m).
Proof. intros w. cbn. lia. Qed.

Lemma takes_input (p : prompt) : takes 1 (input p).
Proof.
  intros w. unfold input. destruct (stdin w) as [| line rest]; [exact I |].
  cbn. lia.
Qed.

Lemma takes_now : takes 0 datetime_now.
Proof. intros w. cbn. lia. Qed.

Lemma takes_read_amount : takes 1 read_amount.
Proof.
  intros w. unfold read_amount.
  pose proof (read_amount_from_run (stdin w) w) as H.
  destruct (read_amount_from (stdin w) w) as [amount w' |]; [| exact I].
  destruct H as (rejected & line & rest & Hlines & _ & _ & _ & Hw).
  rewrite Hw, Hlines. cbn [after stdin]. rewrite length_app. cbn. lia.
Qed.

Lemma takes_less {A : Type} (a b : nat) (m : io A) :
  takes a m -> (b <= a)%nat -> takes b m.
Proof.
  intros Hm Hle w. specialize (Hm w). destruct (m w); [lia | exact I].
Qed.

(** One step of a proof that a piece of the program puts no line back. *)
Ltac takes_step :=
  match goal with
  | |- takes 0 (ret _) => apply takes_ret
  | |- takes 0 (print _) => apply takes_print
  | |- takes 0 (bind (print _) _) =>
      apply (takes_bind 0 0); [apply takes_print | intros _]
  | |- takes 0 (bind (input _) _) =>
      apply (takes_less 1 0); [| lia];
      apply (takes_bind 1 0); [apply takes_input | intros ?]
  | |- takes 0 (bind ask_again _) =>
      apply (takes_bind 0 0); [| intros ?]
  | |- takes 0 ask_again =>
      unfold ask_again
  | |- takes 0 (if ?b then _ else _) => destruct b
  end.

Lemma takes_run_verification (amount risk : float) :
  takes 0 (run_verification amount risk).
Proof.
  unfold run_verification, full_verification, pin_plus_one_verification,
    pin_only_verification.
  repeat takes_step.
Qed.

Lemma takes_failed_verification (s : session) (now : Z) (region : option string)
  (risk : float) (reasons : list reason) :
  takes 0 (failed_verification s now region risk reasons).
Proof.
  unfold failed_verification. cbv zeta.
  change (print_block_instructions "frozen") with (print CardFrozen).
  change (print_block_instructions "blocked") with (print CardPermanentlyBlocked).
  repeat takes_step.
Qed.

Lemma takes_final_decision (s : session) (amount : float) (now : Z)
  (region : option string) (merchant_label : string) (risk : float)
  (decision : string) (reasons : list reason) :
  takes 0 (final_decision s amount now region merchant_label risk decision reasons).
Proof.
  unfold final_decision. cbv zeta.
  change (print_block_instructions "frozen") with (print CardFrozen).
  repeat takes_step.
Qed.

Lemma takes_verify_and_decide (s : session) (amount : float) (now : Z)
  (region : option string) (merchant_label : string) (risk : float)
  (decision : string) (reasons : list reason) :
  takes 0 (verify_and_decide s amount now region merchant_label risk decision
             reasons).
Proof.
  unfold verify_and_decide.
  destruct (verification_required amount risk);
    [| apply takes_final_decision].
  takes_step.
  apply (takes_bind 0 0); [apply takes_run_verification | intros verified].
  destruct verified; cbn [negb].
  - unfold passed_verification. apply takes_final_decision.
  - apply takes_failed_verification.
Qed.

(** A run of the loop body that returns has read at least one line. *)
Lemma takes_transaction (s : session) :
  card_blocked s = false -> takes 1 (transaction s).
Proof.
  intros Hcard. unfold transaction. rewrite Hcard.
  apply (takes_bind 0 1); [apply takes_print | intros _].
  apply (takes_bind 1 0); [apply takes_read_amount | intros amount].
  apply (takes_bind 0 0); [apply takes_now | intros now].
  destruct (amount <? 150).
  - unfold auto_approve. repeat takes_step.
  - takes_step.
    destruct (validate_location x) as [[region known_location] loc_reason].
    takes_step. takes_step.
    destruct (risk_calculation _ _ _ _ _ _ _ _) as [risk reasons].
    apply takes_verify_and_decide.
Qed.

Lemma steps_stopped (n : nat) (c : config) :
  match c with Running _ _ => False | _ => True end -> steps n c = c.
Proof.
  revert c. induction n as [| n IH]; intros c Hc; [reflexivity |].
  destruct c; [contradiction | apply IH; exact Hc | apply IH; exact Hc].
Qed.

Lemma steps_out_of_input (n : nat) :
  forall s w,
    (List.length (stdin w) < n)%nat ->
    match steps n (Running s w) with
    | Running _ _ => False
    | _ => True
    end.
Proof.
  induction n as [| n IH]; intros s w Hlen; [lia |].
  cbn [steps step]. unfold run_iteration.
  destruct (card_blocked s) eqn:Hcard.
  - unfold transaction. rewrite Hcard. cbn. rewrite steps_stopped; exact I.
  - pose proof (takes_transaction s Hcard w) as Htakes.
    destruct (transaction s w) as [[[] s'] w' |].
    + apply IH. lia.
    + rewrite steps_stopped; exact I.
    + rewrite steps_stopped; exact I.
Qed.

(** X6: a session ends.  With [n] lines of input, after at most [n + 1]
    runs of the loop body the loop was left by [break] or the end of the
    input was raised; from then on nothing changes. *)
Theorem session_ends (lines : list string) (clk : nat -> Z) (more : nat) :
  match steps (S (List.length lines)) (initial lines clk) with
  | Running _ _ => False
  | stopped => steps (S (List.length lines) + more) (initial lines clk) = stopped
  end.
Proof.
  pose proof (steps_out_of_input (S (List.length lines)) initial_session
                {| stdin := lines; clock := clk; ticks := 0; stdout := [Say Banner] |})
    as Hout.
  cbn [stdin] in Hout. specialize (Hout (Nat.lt_succ_diag_r _)).
  fold (initial lines clk) in Hout.
  assert (Hadd : forall a b c, steps (a + b) c = steps b (steps a c)).
  { induction a as [| a IHa]; intros b c; [reflexivity | apply IHa]. }
  rewrite Hadd.
  destruct (steps (S (List.length lines)) (initial lines clk));
    [contradiction | apply steps_stopped; exact I | apply steps_stopped; exact I].
Qed.

(** *** The middle tier *)

(** X7: in the middle tier the PIN comes first; a wrong PIN fails at once
    and no choice is offered.  After a right PIN the holder picks one question:
    a choice other than 1, 2 or 3 fails without a question; otherwise that one
    question is asked, and the tier passes exactly when its answer matches.
    The other two questions are never asked. *)
Theorem pin_plus_one_sequence (amount risk : float) (w : world) :
  ((amount >? 5000) || (risk >=? 0.90)) = false ->
  ((amount >? 2000) || (risk >=? 0.70)) = true ->
  let tier := [Say VerificationRequired; Say TierPinPlusOne; Ask EnterPin] in
  (forall pin rest,
      stdin w = pin :: rest -> pin_matches pin = false ->
      run_verification amount risk w
      = Ret false (after w rest (tier ++ [Say PinIncorrect]))) /\
  (forall pin choice rest,
      stdin w = pin :: choice :: rest -> pin_matches pin = true ->
      chosen_factor (strip choice) = None ->
      run_verification amount risk w
      = Ret false
            (after w rest
               (tier ++ [Say ChooseOneOption; Ask SelectOption; Say InvalidChoice]))) /\
  (forall pin choice answer rest question accepts mismatch,
      stdin w = pin :: choice :: answer :: rest -> pin_matches pin = true ->
      chosen_factor (strip choice) = Some (question, accepts, mismatch) ->
      run_verification amount risk w
      = Ret (accepts answer)
            (after w rest
               (tier ++ [Say ChooseOneOption; Ask SelectOption; Ask question;
                         Say (if accepts answer then VerificationPassedMsg
                              else mismatch)]))).
Proof.
  intros Hfull Hmid tier. subst tier.
  destruct w as [lines clk tk out].
  unfold run_verification, pin_plus_one_verification, pin_matches.
  io_run. rewrite Hfull, Hmid.
  split; [| split].
  - intros pin rest -> Hpin. rewrite Hpin. io_run. f_equal. f_equal. same_output.
  - intros pin choice rest -> Hpin Hchoice. rewrite Hpin. io_run.
    unfold chosen_factor in Hchoice.
    destruct (String.eqb (strip choice) "1"); [discriminate |].
    destruct (String.eqb (strip choice) "2"); [discriminate |].
    destruct (String.eqb (strip choice) "3"); [discriminate |].
    f_equal. f_equal. same_output.
  - intros pin choice answer rest question accepts mismatch -> Hpin Hchoice.
    rewrite Hpin. io_run. unfold chosen_factor in Hchoice.
    destruct (String.eqb (strip choice) "1");
      [| destruct (String.eqb (strip choice) "2");
         [| destruct (String.eqb (strip choice) "3"); [| discriminate]]];
      inversion Hchoice; subst question accepts mismatch;
      unfold surname_matches, dob_matches, cvv_matches;
      match goal with
      | |- context [if negb (String.eqb ?a ?b) then _ else _] =>
          destruct (String.eqb a b)
      | |- context [if String.eqb ?a ?b then _ else _] =>
          destruct (String.eqb a b)
      end; io_run; f_equal; f_equal; same_output.
Qed.

(** *** Locations *)

(** X8: [validate_location] reports a location as known exactly when it
    returns a region.  A location it cannot resolve therefore pays twice in
    the risk calculation: 0.30 for being outside Alberta and 0.10 for being
    unknown. *)
Theorem unresolved_location_pays_twice (location : string)
  (reasons1 reasons2 : list reason) :
  let '(region, known_location, _) := validate_location location in
  (known_location = true <-> region <> None) /\
  (known_location = false ->
   add_location_risk region reasons1 = (0.30, reasons1 ++ [OutsideAlberta]) /\
   add_unknown_location_risk known_location reasons2
   = (0.10, reasons2 ++ [UnknownLocation])).
Proof.
  unfold validate_location.
  destruct (split "," (strip (lower location))) as [| city [| region [| ? ?]]];
    try (split; [split; [discriminate | intros H; contradiction] | intros _; split; reflexivity]).
  repeat match goal with
         | |- context [if ?b then _ else _] => destruct b
         end;
    (split; [split; [intros _; discriminate | reflexivity]
            | intros H; discriminate H])
    || (split; [split; [discriminate | intros H; contradiction]
               | intros _; split; reflexivity]).
Qed.

(** *** The most frequent merchant and region *)

(** X9: when iterating over a set yields exactly the elements of the list
    it was built from, the profile's usual merchant and usual region are
    taken from the history, and no merchant, respectively region, occurs more
    often in it. *)
Theorem profile_takes_the_most_frequent (history : list history_entry)
  (p : patterns) :
  (forall xs x, In x (set_iter xs) <-> In x xs) ->
  analyze_spending_patterns history = Some p ->
  (In (frequent_merchant p) (map h_merchant history) /\
   forall e, In e history ->
     (count (map h_merchant history) (h_merchant e)
      <= count (map h_merchant history) (frequent_merchant p))%Z) /\
  (In (frequent_region p) (map h_region history) /\
   forall e, In e history ->
     (count (map h_region history) (h_region e)
      <= count (map h_region history) (frequent_region p))%Z).
Proof.
  intros Hset Hp. unfold analyze_spending_patterns in Hp.
  destruct (Nat.ltb_spec (List.length history) 5) as [Hshort | Hlong];
    [discriminate |].
  assert (Hne : forall f : history_entry -> string, map f history <> []).
  { intros f. destruct history; [cbn in Hlong; lia | discriminate]. }
  inversion Hp; subst p; clear Hp. cbn [frequent_merchant frequent_region].
  split.
  - destruct (most_frequent_greatest (map h_merchant history) (Hne _) (Hset _))
      as [Hin Hmax].
    split; [exact Hin |]. intros e He. apply Hmax. apply in_map. exact He.
  - destruct (most_frequent_greatest (map h_region history) (Hne _) (Hset _))
      as [Hin Hmax].
    split; [exact Hin |]. intros e He. apply Hmax. apply in_map. exact He.
Qed.

(** *** Decisions *)

Lemma SFltb_false_SFleb (x y : spec_float) :
  SFleb x x = true -> SFleb y y = true -> SFltb x y = false -> SFleb y x = true.
Proof. sf_order. Qed.

Lemma SFleb_nan (x y : spec_float) :
  SFleb x x = false ->
  SFltb x y = false /\ SFltb y x = false /\ SFleb x y = false /\ SFleb y x = false.
Proof. sf_order; repeat split; congruence. Qed.

Lemma SFleb_left_number (x y : spec_float) : SFleb x y = true -> SFleb y y = true.
Proof. sf_order. Qed.

Lemma float_not_lt_le (x y : float) :
  is_number x = true -> is_number y = true -> (x <? y) = false -> (y <=? x) = true.
Proof. unfold is_number. rewrite !leb_spec, ltb_spec. apply SFltb_false_SFleb. Qed.

Lemma float_number_not_le_lt (x y : float) :
  is_number x = true -> is_number y = true -> (x <=? y) = false -> (y <? x) = true.
Proof. unfold is_number. rewrite !leb_spec, ltb_spec. apply SFleb_total. Qed.

Lemma float_nan_compares (x y : float) :
  is_number x = false ->
  (x <? y) = false /\ (y <? x) = false /\ (x <=? y) = false /\ (y <=? x) = false.
Proof. unfold is_number. rewrite !leb_spec, !ltb_spec. apply SFleb_nan. Qed.

Lemma float_above_is_number (x y : float) : (x <=? y) = true -> is_number y = true.
Proof. unfold is_number. rewrite !leb_spec. apply SFleb_left_number. Qed.

(** X10: for a score that is a number, [decide] is a ladder of upper
    bounds: below 0.50, up to 0.80, up to 0.90, below 1.0, and CRITICAL from
    1.0 on; the lower bounds written in its conditions exclude nothing.  A NaN
    satisfies none of the conditions and is CRITICAL. *)
Theorem decide_bands (risk : float) :
  (is_number risk = true ->
   decide risk
   = if risk <? 0.50 then APPROVED
     else if risk <=? 0.80 then APPROVED_FLAGGED
     else if risk <=? 0.90 then CALL_BANK
     else if risk <? 1.0 then UNDER_REVIEW
     else CRITICAL_RISK) /\
  (is_number risk = false -> decide risk = CRITICAL_RISK).
Proof.
  unfold decide. split; intros Hrisk.
  - destruct (risk <? 0.50) eqn:H50; [reflexivity |].
    rewrite (float_not_lt_le risk 0.50 Hrisk eq_refl H50). cbn [andb].
    destruct (risk <=? 0.80) eqn:H80; [reflexivity |].
    rewrite (float_number_not_le_lt risk 0.80 Hrisk eq_refl H80). cbn [andb].
    destruct (risk <=? 0.90) eqn:H90; [reflexivity |].
    rewrite (float_number_not_le_lt risk 0.90 Hrisk eq_refl H90). cbn [andb].
    destruct (risk <? 1.0); reflexivity.
  - destruct (float_nan_compares risk 0.50 Hrisk) as (H1 & _ & _ & H2).
    destruct (float_nan_compares risk 0.80 Hrisk) as (_ & H3 & _ & _).
    destruct (float_nan_compares risk 0.90 Hrisk) as (_ & H4 & _ & _).
    rewrite H1, H2, H3, H4. reflexivity.
Qed.

Lemma float_lt_le (x y : float) : (x <? y) = true -> (x <=? y) = true.
Proof.
  rewrite leb_spec, ltb_spec. unfold SFleb, SFltb.
  destruct (SFcompare (Prim2SF x) (Prim2SF y)) as [[] |]; congruence.
Qed.

(** The label of a score with what the conditions of [decide] say of it. *)
Lemma decide_cases (risk : float) :
  decide risk = APPROVED \/
  (decide risk = APPROVED_FLAGGED /\ (0.50 <=? risk) = true) \/
  (decide risk = CALL_BANK /\ (0.80 <? risk) = true) \/
  (decide risk = UNDER_REVIEW /\ (0.90 <? risk) = true) \/
  (decide risk = CRITICAL_RISK /\ (is_number risk = true -> (0.90 <? risk) = true)).
Proof.
  unfold decide. destruct (is_number risk) eqn:Hnum.
  - destruct (risk <? 0.50) eqn:H50; [left; reflexivity | right].
    rewrite (float_not_lt_le risk 0.50 Hnum eq_refl H50). cbn [andb].
    destruct (risk <=? 0.80) eqn:H80; [left; split; reflexivity | right].
    rewrite (float_number_not_le_lt risk 0.80 Hnum eq_refl H80). cbn [andb].
    destruct (risk <=? 0.90) eqn:H90; [left; split; reflexivity | right].
    pose proof (float_number_not_le_lt risk 0.90 Hnum eq_refl H90) as H90'.
    rewrite H90'. cbn [andb].
    destruct (risk <? 1.0); [left; split; reflexivity | right].
    split; [reflexivity | intros _; reflexivity].
  - destruct (float_nan_compares risk 0.50 Hnum) as (H1 & _ & _ & H2).
    destruct (float_nan_compares risk 0.80 Hnum) as (_ & H3 & _ & _).
    destruct (float_nan_compares risk 0.90 Hnum) as (_ & H4 & _ & _).
    rewrite H1, H2, H3, H4. cbn [andb].
    right. right. right. right. split; [reflexivity | discriminate].
Qed.

(** X11: the decision sets a floor under the verification tier, whatever
    the amount.  A score that is under review, or critical and a number,
    faces the full tier; a score for which the bank is to be called faces the
    full or the middle tier; a flagged score is verified, by one of the three
    tiers. *)
Theorem decision_sets_the_tier (amount risk : float) :
  (decide risk = UNDER_REVIEW \/
   (decide risk = CRITICAL_RISK /\ is_number risk = true) ->
   run_verification amount risk = (print VerificationRequired ;; full_verification)) /\
  (decide risk = CALL_BANK ->
   run_verification amount risk = (print VerificationRequired ;; full_verification) \/
   run_verification amount risk
   = (print VerificationRequired ;; pin_plus_one_verification)) /\
  (decide risk = APPROVED_FLAGGED ->
   verification_required amount risk = true /\
   (run_verification amount risk = (print VerificationRequired ;; full_verification) \/
    run_verification amount risk
    = (print VerificationRequired ;; pin_plus_one_verification) \/
    run_verification amount risk
    = (print VerificationRequired ;; pin_only_verification))).
Proof.
  assert (Hfull : (0.90 <? risk) = true ->
            run_verification amount risk
            = (print VerificationRequired ;; full_verification)).
  { intros H. apply float_lt_le in H. unfold run_verification.
    rewrite H, orb_true_r. reflexivity. }
  assert (Hmid : (0.80 <? risk) = true ->
            run_verification amount risk
            = (print VerificationRequired ;; full_verification) \/
            run_verification amount risk
            = (print VerificationRequired ;; pin_plus_one_verification)).
  { intros H. apply float_lt_le in H.
    pose proof (float_le_trans 0.70 0.80 risk eq_refl H) as H70.
    unfold run_verification. rewrite H70, orb_true_r.
    destruct ((amount >? 5000) || (risk >=? 0.90)); [left | right]; reflexivity. }
  assert (Hpin : (0.50 <=? risk) = true ->
            verification_required amount risk = true /\
            (run_verification amount risk
             = (print VerificationRequired ;; full_verification) \/
             run_verification amount risk
             = (print VerificationRequired ;; pin_plus_one_verification) \/
             run_verification amount risk
             = (print VerificationRequired ;; pin_only_verification))).
  { intros H. unfold verification_required, run_verification.
    rewrite H, orb_true_r. split; [reflexivity |].
    destruct ((amount >? 5000) || (risk >=? 0.90)); [left; reflexivity |].
    destruct ((amount >? 2000) || (risk >=? 0.70)); right; [left | right];
      reflexivity. }
  destruct (decide_cases risk)
    as [Hd | [[Hd H] | [[Hd H] | [[Hd H] | [Hd H]]]]]; rewrite Hd;
    (split; [| split]);
    try (intros Hwrong; discriminate Hwrong);
    try (intros [Hwrong | [Hwrong _]]; discriminate Hwrong).
  - intros _. apply Hpin. exact H.
  - intros _. apply Hmid. exact H.
  - intros _. apply Hfull. exact H.
  - intros [Hwrong | [_ Hnum]]; [discriminate Hwrong |]. apply Hfull. apply H. exact Hnum.
Qed.

(** *** Decision and verification in the loop *)

(** A property of scores that holds of every clamped sum of contributions
    holds of the score of the risk calculation. *)
Lemma score_property (P : float -> bool) :
  all_choices (fun cs => P (composite_score cs)) contribution_values [] = true ->
  forall (s : session) (amount : float) (now : Z) (region : option string)
         (known_location : bool) (loc_reason choice merchant_label : string),
    P (fst (risk_calculation s amount now region known_location loc_reason
              choice merchant_label)) = true.
Proof.
  intros Hall s amount now region known_location loc_reason choice merchant_label.
  destruct (risk_calculation_sum s amount now region known_location loc_reason
              choice merchant_label)
    as (r1 & r2 & r3 & r4 & r5 & r6 & r7 & Hscore).
  rewrite Hscore.
  apply (all_choices_sound _ contribution_values [] _ Hall).
  unfold contribution_values.
  repeat match goal with
         | |- Forall2 _ (_ :: _) _ => apply Forall2_cons
         | |- Forall2 _ [] _ => apply Forall2_nil
         end.
  - apply (amount_zone_values amount []).
  - apply (location_values region r1).
  - apply (unknown_location_values known_location r2).
  - apply (time_of_day_values now r3).
  - apply (merchant_values choice r4).
  - apply (velocity_values (last_tx_time s) now r5).
  - apply (location_jump_values (last_region s) region r6).
  - apply (behavioral_values (spending_history s) amount merchant_label now
             (or_unknown region) r7).
Qed.

(** X12: in the loop a transaction is verified exactly when its amount is
    above 1000 or its decision is not APPROVED: the score the decision is
    taken from is a number, so "not below 0.50" and "at least 0.50" agree.
    No transaction is flagged by its decision without having been verified. *)
Theorem verification_follows_decision (s : session) (amount : float) (now : Z)
  (region : option string) (known_location : bool)
  (loc_reason choice merchant_label : string) :
  let risk :=
    fst (risk_calculation s amount now region known_location loc_reason
           choice merchant_label) in
  is_number risk = true /\
  verification_required amount risk
  = (amount >? 1000) || negb (String.eqb (decide risk) "APPROVED").
Proof.
  intros risk.
  assert (Hnum : is_number risk = true)
    by (apply (score_property is_number); vm_compute; reflexivity).
  split; [exact Hnum |].
  unfold verification_required. rewrite decide_approved. f_equal.
  destruct (risk <? 0.50) eqn:H50; cbn [negb].
  - apply float_lt_not_le. exact H50.
  - apply float_not_lt_le; [exact Hnum | reflexivity | exact H50].
Qed.

(** *** Rounding and the thresholds *)

(** The contributions of a transaction, each among the values of its
    component. *)
Lemma contributions_in_values (s : session) (amount : float) (now : Z)
  (region : option string) (known_location : bool) (choice merchant_label : string) :
  Forall2 (@In float)
    [ fst (add_amount_zone_risk amount []);
      fst (add_location_risk region []);
      fst (add_unknown_location_risk known_location []);
      fst (add_time_of_day_risk now []);
      fst (add_merchant_risk choice []);
      fst (add_velocity_risk (last_tx_time s) now []);
      fst (add_location_jump_risk (last_region s) region []);
      fst (add_behavioral_risk (spending_history s) amount merchant_label now
             (or_unknown region) []) ]
    contribution_values.
Proof.
  unfold contribution_values.
  repeat match goal with
         | |- Forall2 _ (_ :: _) _ => apply Forall2_cons
         | |- Forall2 _ [] _ => apply Forall2_nil
         end.
  - apply (amount_zone_values amount []).
  - apply (location_values region []).
  - apply (unknown_location_values known_location []).
  - apply (time_of_day_values now []).
  - apply (merchant_values choice []).
  - apply (velocity_values (last_tx_time s) now []).
  - apply (location_jump_values (last_region s) region []).
  - apply (behavioral_values (spending_history s) amount merchant_label now
             (or_unknown region) []).
Qed.

Lemma all_sums_sound (P : float -> Z -> bool) (candidates : list (list float)) :
  forall f z picks,
    all_sums P (map (map (fun c => (c, hundredths c))) candidates) f z = true ->
    Forall2 (@In float) picks candidates ->
    P (fold_left PrimFloat.add picks f)
      (fold_left (fun sum c => (sum + hundredths c)%Z) picks z) = true.
Proof.
  induction candidates as [| cs rest IH]; intros f z picks Hall Hpicks.
  - inversion Hpicks; subst. exact Hall.
  - inversion Hpicks as [| c cs' picks' rest' Hc Hrest]; subst.
    cbn [map all_sums] in Hall. rewrite forallb_forall in Hall.
    cbn [fold_left]. apply IH; [| exact Hrest].
    apply (Hall (c, hundredths c)).
    apply (in_map (fun c => (c, hundredths c))). exact Hc.
Qed.

(** X13: rounding does not move a score across 0.50, 0.70 or 0.80.  Read
    in exact hundredths (the weights are 0, 5, 10, 15, 20, 30, 40 and 50
    hundredths, the behavioural sub-total 0 to 50), the clamped sum is at least
    50, below 50, at least 70 and at most 80 exactly when the score of the risk
    calculation is at least 0.50, below 0.50, at least 0.70 and at most 0.80.
    This does not extend to 0.90: 0.20 + 0.30 + 0.10 + 0.10 + 0.20 make 90
    hundredths, and a score below 0.90. *)
Theorem thresholds_survive_rounding (s : session) (amount : float) (now : Z)
  (region : option string) (known_location : bool)
  (loc_reason choice merchant_label : string) :
  let contributions :=
    [ fst (add_amount_zone_risk amount []);
      fst (add_location_risk region []);
      fst (add_unknown_location_risk known_location []);
      fst (add_time_of_day_risk now []);
      fst (add_merchant_risk choice []);
      fst (add_velocity_risk (last_tx_time s) now []);
      fst (add_location_jump_risk (last_region s) region []);
      fst (add_behavioral_risk (spending_history s) amount merchant_label now
             (or_unknown region) []) ] in
  let score :=
    fst (risk_calculation s amount now region known_location loc_reason
           choice merchant_label) in
  let exact := exact_score contributions in
  ((score >=? 0.50) = (50 <=? exact)%Z /\
   (score <? 0.50) = (exact <? 50)%Z /\
   (score >=? 0.70) = (70 <=? exact)%Z /\
   (score <=? 0.80) = (exact <=? 80)%Z) /\
  map (map hundredths) contribution_values
  = [ [0; 10; 20; 30; 40; 50]; [0; 30]; [0; 10]; [0; 10];
      [0; 5; 10; 15; 20; 30; 5]; [0; 15]; [0; 10];
      [0; 10; 10; 20; 10; 20; 20; 30; 20; 30; 30; 40; 30; 40; 40; 50] ]%Z /\
  (exact_score [0.20; 0.30; 0.10; 0.10; 0.20; 0.0; 0.0; 0.0] = 90%Z /\
   (composite_score [0.20; 0.30; 0.10; 0.10; 0.20; 0.0; 0.0; 0.0] >=? 0.90) = false).
Proof.
  intros contributions score exact.
  assert (Hscore : score = composite_score contributions).
  { unfold score, contributions.
    destruct (risk_calculation_sum s amount now region known_location loc_reason
                choice merchant_label)
      as (r1 & r2 & r3 & r4 & r5 & r6 & r7 & H).
    rewrite H.
    rewrite (contributions_ignore_reasons s amount now region known_location
               choice merchant_label [] r1 r2 r3 r4 r5 r6 r7).
    reflexivity. }
  assert (Hexact : compares_exactly score exact = true).
  { rewrite Hscore. unfold exact, composite_score, exact_score.
    apply (all_sums_sound
             (fun f z => compares_exactly (py_min f 1.0) (Z.min 100 z))
             contribution_values 0.0 0%Z contributions).
    - vm_compute. reflexivity.
    - apply contributions_in_values. }
  unfold compares_exactly in Hexact.
  repeat (apply andb_true_iff in Hexact; destruct Hexact as [Hexact ?]).
  repeat match goal with
         | H : Bool.eqb _ _ = true |- _ => apply Bool.eqb_prop in H
         end.
  split; [auto |].
  split; vm_compute; auto.
Qed.

(** *** The flag-based freeze *)

(** X14: the final decision freezes the card exactly when [flagged_count],
    with this transaction counted, has reached 5: the frozen-card notice is
    printed, the loop is left and no further line is read.  Below 5 the card
    is left as it was and the holder is asked whether to go on. *)
Theorem final_decision_freezes_at_five (s : session) (amount : float) (now : Z)
  (region : option string) (merchant_label : string) (risk : float)
  (decision : string) (reasons : list reason) (w : world)
  (c : loop_exit) (s' : session) (w' : world) :
  final_decision s amount now region merchant_label risk decision reasons w
  = Ret (c, s') w' ->
  ((5 <= flagged_count s')%Z ->
   c = Break /\ card_blocked s' = true /\
   w' = after w (stdin w) [Say (FraudResult risk decision reasons); Say CardFrozen]) /\
  ((flagged_count s' < 5)%Z ->
   card_blocked s' = card_blocked s /\
   exists again rest,
     stdin w = again :: rest /\
     (c = Continue <-> lower again = "yes"%string) /\
     w' = after w rest [Say (FraudResult risk decision reasons); Ask AnalyzeAnother]).
Proof.
  intros Hrun. destruct w as [lines clk tk out].
  unfold final_decision, ask_again in Hrun. cbv zeta in Hrun.
  change (print_block_instructions "frozen") with (print CardFrozen) in Hrun.
  cbn [pin_fails flagged_count card_blocked last_tx_time last_region
       spending_history] in Hrun.
  io_run_in Hrun.
  match type of Hrun with
  | context [(?f >=? 5)%Z] => destruct (Z.geb_spec f 5) as [Hge | Hlt]
  end.
  - inversion Hrun; subst. cbn [flagged_count card_blocked block_card].
    split; [intros _ | intros Hlow; lia].
    split; [reflexivity |]. split; [reflexivity |].
    unfold after. cbn [stdin stdout clock ticks]. f_equal. same_output.
  - destruct lines as [| again rest]; [discriminate |].
    destruct (String.eqb_spec (lower again) "yes") as [Hyes | Hno];
      inversion Hrun; subst; cbn [flagged_count card_blocked];
      (split; [intros Hhigh; lia | intros _]);
      (split; [reflexivity |]); exists again, rest;
      (split; [reflexivity |]);
      (split; [| unfold after; cbn [stdin stdout clock ticks]; f_equal; same_output]).
    + split; auto.
    + split; [discriminate | intros H; contradiction].
Qed.

(** *** The first transactions of a session *)

Lemma steps_history_length (n : nat) :
  forall s w,
    match steps n (Running s w) with
    | Running s' _ | Exited s' _ =>
        (List.length (spending_history s') <= List.length (spending_history s) + n)%nat
    | Crashed _ => True
    end.
Proof.
  induction n as [| n IH]; intros s w.
  - cbn. lia.
  - cbn [steps]. generalize (step_history (Running s w)).
    destruct (step (Running s w)) as [s1 w1 | s1 w1 | w1]; intros Hstep.
    + destruct Hstep as (l1 & Hh1 & Hlen1 & _). specialize (IH s1 w1).
      destruct (steps n (Running s1 w1)); [| | exact I];
        rewrite Hh1, length_app in IH; lia.
    + destruct Hstep as (l1 & Hh1 & Hlen1 & _).
      rewrite steps_stopped by exact I. rewrite Hh1, length_app. lia.
    + rewrite steps_stopped by exact I. exact I.
Qed.

(** X15: the behavioural component is silent in the first five
    transactions of a session: after fewer than five runs of the loop body the
    history holds fewer than five entries, and the component contributes 0 and
    gives no reason. *)
Theorem behavior_silent_at_first (lines : list string) (clk : nat -> Z) (n : nat)
  (amount : float) (merchant_label : string) (now : Z) (region : string)
  (reasons : list reason) :
  (n < 5)%nat ->
  match steps n (initial lines clk) with
  | Running s _ =>
      add_behavioral_risk (spending_history s) amount merchant_label now region
        reasons = (0.0, reasons)
  | _ => True
  end.
Proof.
  intros Hn. unfold initial.
  generalize (steps_history_length n initial_session
                {| stdin := lines; clock := clk; ticks := 0; stdout := [Say Banner] |}).
  destruct (steps n _) as [s w | s w | w]; intros Hlen; [| exact I | exact I].
  cbn [initial_session spending_history List.length] in Hlen.
  unfold add_behavioral_risk, analyze_spending_patterns.
  destruct (Nat.ltb_spec (List.length (spending_history s)) 5); [reflexivity | lia].
Qed.

End Engine.

(** ** The engine at work

    The statements below run the engine with the runtime of the examples. *)

Abbreviation run :=
  (steps whole_number sum_left_to_right first_occurrences nowhere nowhere).
Abbreviation visited :=
  (reachable whole_number sum_left_to_right first_occurrences nowhere nowhere).

(** C1: the check of [flagged_count] does not follow a failed
    verification.  After four flagged transactions that passed verification
    and a fifth whose verification failed, [flagged_count] is 5, yet the card
    is not frozen, no frozen-card notice was printed, and the session is at
    the head of the loop, ready for the next transaction. *)
Theorem flag_freeze_skipped_after_failed_verification :
  exists s w,
    run 5 (initial four_passed_one_failed noon_clock) = Running s w /\
    visited (Running s w) /\
    flagged_count s = 5%Z /\ pin_fails s = 1%Z /\ card_blocked s = false /\
    existsb is_frozen_notice (stdout w) = false.
Proof.
  assert (H : match run 5 (initial four_passed_one_failed noon_clock) with
              | Running s w =>
                  flagged_count s = 5%Z /\ pin_fails s = 1%Z /\
                  card_blocked s = false /\
                  existsb is_frozen_notice (stdout w) = false
              | _ => False
              end) by (vm_compute; repeat split).
  destruct (run 5 (initial four_passed_one_failed noon_clock))
    as [s w | s w | w] eqn:Hrun; try contradiction.
  exists s, w. split; [reflexivity |]. split; [| exact H].
  exists four_passed_one_failed, noon_clock, 5%nat. exact Hrun.
Qed.

(** Against C4 as stated: a flagged transaction (score 0.50) passes
    verification, [pin_fails] is 0 afterwards, and [flagged_count] went from
    0 to 1. *)
Lemma passed_verification_can_flag :
  exists s w,
    run 1 (initial (flagged_transaction "1234" "yes") noon_clock) = Running s w /\
    stdout w
    = [ Say Banner; Say NewTransaction; Ask EnterAmount; Ask EnterLocation;
        Say MerchantTypeMenu; Ask ChooseMerchant;
        Say (VerificationTriggered 0.5 1500);
        Say VerificationRequired; Say TierPinOnly; Ask EnterPin;
        Say VerificationPassedMsg;
        Say (FraudResult 0.5 "APPROVED (FLAGGED)"
               [ CautionSpendZone; OutsideAlberta; UnknownLocation;
                 MerchantCategory "Groceries / Essentials";
                 LocationMessage "Invalid format. Use: City, Region.";
                 VerificationPassed ]);
        Ask AnalyzeAnother ] /\
    pin_fails s = 0%Z /\
    flagged_count initial_session = 0%Z /\ flagged_count s = 1%Z.
Proof.
  assert (H : match run 1 (initial (flagged_transaction "1234" "yes") noon_clock) with
              | Running s w =>
                  stdout w
                  = [ Say Banner; Say NewTransaction; Ask EnterAmount;
                      Ask EnterLocation; Say MerchantTypeMenu; Ask ChooseMerchant;
                      Say (VerificationTriggered 0.5 1500);
                      Say VerificationRequired; Say TierPinOnly; Ask EnterPin;
                      Say VerificationPassedMsg;
                      Say (FraudResult 0.5 "APPROVED (FLAGGED)"
                             [ CautionSpendZone; OutsideAlberta; UnknownLocation;
                               MerchantCategory "Groceries / Essentials";
                               LocationMessage "Invalid format. Use: City, Region.";
                               VerificationPassed ]);
                      Ask AnalyzeAnother ] /\
                  pin_fails s = 0%Z /\
                  flagged_count initial_session = 0%Z /\ flagged_count s = 1%Z
              | _ => False
              end) by (vm_compute; repeat split).
  destruct (run 1 (initial (flagged_transaction "1234" "yes") noon_clock))
    as [s w | s w | w]; try contradiction.
  exists s, w. split; [reflexivity | exact H].
Qed.

(** Against C10 as stated: the verification of the only transaction fails
    and the holder stops; the transaction was made at noon from an unknown
    region, and [last_tx_time] and [last_region] are still [None]. *)
Lemma failed_verification_can_keep_last_transaction :
  exists s w,
    run 1 (initial (flagged_transaction "0000" "no") noon_clock) = Exited s w /\
    stdout w
    = [ Say Banner; Say NewTransaction; Ask EnterAmount; Ask EnterLocation;
        Say MerchantTypeMenu; Ask ChooseMerchant;
        Say (VerificationTriggered 0.5 1500);
        Say VerificationRequired; Say TierPinOnly; Ask EnterPin;
        Say PinIncorrect;
        Say (FraudResult 0.5 "DECLINED (Failed Verification)"
               [ CautionSpendZone; OutsideAlberta; UnknownLocation;
                 MerchantCategory "Groceries / Essentials";
                 LocationMessage "Invalid format. Use: City, Region.";
                 VerificationFailedDeclined ]);
        Ask AnalyzeAnother ] /\
    spending_history s = [] /\
    noon_clock 0 = 43200000000%Z /\
    last_tx_time s = None /\ last_region s = None.
Proof.
  assert (H : match run 1 (initial (flagged_transaction "0000" "no") noon_clock) with
              | Exited s w =>
                  stdout w
                  = [ Say Banner; Say NewTransaction; Ask EnterAmount;
                      Ask EnterLocation; Say MerchantTypeMenu; Ask ChooseMerchant;
                      Say (VerificationTriggered 0.5 1500);
                      Say VerificationRequired; Say TierPinOnly; Ask EnterPin;
                      Say PinIncorrect;
                      Say (FraudResult 0.5 "DECLINED (Failed Verification)"
                             [ CautionSpendZone; OutsideAlberta; UnknownLocation;
                               MerchantCategory "Groceries / Essentials";
                               LocationMessage "Invalid format. Use: City, Region.";
                               VerificationFailedDeclined ]);
                      Ask AnalyzeAnother ] /\
                  spending_history s = [] /\
                  noon_clock 0 = 43200000000%Z /\
                  last_tx_time s = None /\ last_region s = None
              | _ => False
              end) by (vm_compute; repeat split).
  destruct (run 1 (initial (flagged_transaction "0000" "no") noon_clock))
    as [s w | s w | w]; try contradiction.
  exists s, w. split; [reflexivity | exact H].
Qed.

(** *** The theorems at concrete inputs *)

Lemma first_occurrences_In (xs : list string) (x : string) :
  In x (first_occurrences xs) <-> In x xs.
Proof.
  induction xs as [| y xs IH]; cbn [first_occurrences]; [reflexivity |].
  cbn [In]. rewrite filter_In, IH.
  destruct (String.eqb_spec x y) as [-> | Hne]; cbn [negb].
  - split; [intros [H | [H _]]; auto | intros _; left; reflexivity].
  - split; [intros [H | [H _]]; auto | intros [H | H]; [left; exact H |]].
    right. split; [exact H | reflexivity].
Qed.


(** 1500 dollars lies in the band above 500 and up to 2000. *)
Lemma amount_zone_table_witness :
  fst (add_amount_zone_risk 1500 []) = 0.10%float.
Proof.
  apply (proj1 (proj2 (amount_zone_table 1500 []))); reflexivity.
Defined.

(** Without history the component is silent.  After five purchases of 10,
    20, 30, 40 and 100 dollars at 8, 10, 12, 14 and 16 o'clock the averages are
    40 dollars and noon: 100 dollars of groceries at 3 o'clock in Ontario is
    not above three times the average amount, though above three times the
    first amount, and is more than 6 hours from the average hour, though not
    from the first; the hour and the region are what it pays for. *)
Lemma behavioral_risk_sum_witness :
  add_behavioral_risk sum_left_to_right first_occurrences []
    9000 "Electronics / Tech" (3 * 3600000000) "on" [] = (0.0%float, []) /\
  exists p,
    analyze_spending_patterns sum_left_to_right first_occurrences varied_purchases
    = Some p /\
    avg_amount p = 40%float /\
    avg_hour p = 12%float /\
    (In (frequent_merchant p) (map h_merchant varied_purchases) /\
     (count (map h_merchant varied_purchases) "Groceries / Essentials"
      <= count (map h_merchant varied_purchases) (frequent_merchant p))%Z) /\
    (In (frequent_region p) (map h_region varied_purchases) /\
     (count (map h_region varied_purchases) "ab"
      <= count (map h_region varied_purchases) (frequent_region p))%Z) /\
    add_behavioral_risk sum_left_to_right first_occurrences varied_purchases
      100 "Groceries / Essentials" (3 * 3600000000) "on" []
    = (0.2%float, [TimeUnusual; RegionUnusual "ab"]).
Proof.
  split.
  - apply (proj1 (behavioral_risk_sum sum_left_to_right first_occurrences []
                    9000 "Electronics / Tech" (3 * 3600000000) "on" [])).
    cbn. lia.
  - destruct (proj2 (behavioral_risk_sum sum_left_to_right first_occurrences
                       varied_purchases 100 "Groceries / Essentials"
                       (3 * 3600000000) "on" []))
      as (p & Hp & Hamount & Hhour & Husual & Hrun).
    + cbn. lia.
    + destruct (Husual first_occurrences_In) as [[Hm Hmmax] [Hr Hrmax]].
      exists p. split; [exact Hp |].
      split; [rewrite Hamount; vm_compute; reflexivity |].
      split; [rewrite Hhour; vm_compute; reflexivity |].
      split; [split; [exact Hm | apply Hmmax] |].
      split; [split; [exact Hr | apply Hrmax] |].
      rewrite Hrun. vm_compute in Hp. injection Hp as <-. vm_compute. reflexivity.
Defined.

(** The four right answers pass the full tier. *)
Lemma full_verification_sequence_witness :
  run_verification 6000 1
    (typed ["Wahdan"; "1990-05-14"; "123"; "1234"; "no"]%string)
  = Ret true
        (after (typed ["Wahdan"; "1990-05-14"; "123"; "1234"; "no"]%string)
           ["no"%string]
           [ Say VerificationRequired; Say TierFull; Ask EnterLastName;
             Ask EnterDob; Ask EnterCvv; Ask EnterPin; Say VerificationPassedMsg ]).
Proof.
  exact (proj1 (proj2 (proj2 (proj2
           (full_verification_sequence 6000 1
              (typed ["Wahdan"; "1990-05-14"; "123"; "1234"; "no"]%string)
              eq_refl))))
           "Wahdan"%string "1990-05-14"%string "123"%string "1234"%string
           ["no"%string] eq_refl eq_refl eq_refl eq_refl).
Defined.


(** A third failure brings the warning and the session goes on at the
    holder's word; a fifth failure freezes the card. *)
Lemma escalation_on_failed_verification_witness :
  (exists c s',
      failed_verification (after_failures 2) (noon_clock 0) None 0.5 []
        (typed ["yes"%string])
      = Ret (c, s')
            (after (typed ["yes"%string]) []
               [ Say (FraudResult 0.5 "DECLINED (Failed Verification)"
                        [VerificationFailedDeclined]);
                 Say FailedAttemptsWarning; Ask AnalyzeAnother ]) /\
      card_blocked s' = false /\ pin_fails s' = 3%Z /\
      (c = Continue <-> lower "yes" = "yes"%string)) /\
  failed_verification (after_failures 4) (noon_clock 0) None 0.5 []
    (typed ["yes"%string])
  = Ret (Break,
         {| flagged_count := 5; pin_fails := 5; card_blocked := true;
            last_tx_time := None; last_region := None; spending_history := [] |})
        (after (typed ["yes"%string]) ["yes"%string]
           [ Say (FraudResult 0.5 "DECLINED (Failed Verification)"
                    [VerificationFailedDeclined]);
             Say CardFrozen ]).
Proof.
  split.
  - exact (proj1 (escalation_on_failed_verification whole_number sum_left_to_right
                    first_occurrences nowhere nowhere (after_failures 2)
                    (noon_clock 0) None 0.5 [] (typed ["yes"%string]))
             eq_refl "yes"%string [] eq_refl).
  - exact (proj1 (proj2 (escalation_on_failed_verification whole_number
                           sum_left_to_right first_occurrences nowhere nowhere
                           (after_failures 4) (noon_clock 0) None 0.5 []
                           (typed ["yes"%string]))
                    eq_refl)).
Defined.

(** 1500 dollars from an unknown place, score 0.50: the PIN-only tier runs;
    a wrong PIN adds 1 to both counters. *)
Lemma verification_counters_witness :
  pin_fails (after_failures 1) = (pin_fails (after_failures 0) + 1)%Z /\
  flagged_count (after_failures 1) = (flagged_count (after_failures 0) + 1)%Z.
Proof.
  exact (verification_counters (after_failures 0) 1500 (noon_clock 0) None
           "Groceries / Essentials" 0.5 [] (typed ["0000"; "no"]%string)
           (after (typed ["0000"; "no"]%string) ["no"%string]
              [ Say (VerificationTriggered 0.5 1500); Say VerificationRequired;
                Say TierPinOnly; Ask EnterPin; Say PinIncorrect ])
           (after (typed ["0000"; "no"]%string) []
              [ Say (VerificationTriggered 0.5 1500); Say VerificationRequired;
                Say TierPinOnly; Ask EnterPin; Say PinIncorrect;
                Say (FraudResult 0.5 "DECLINED (Failed Verification)"
                       [VerificationFailedDeclined]);
                Ask AnalyzeAnother ])
           false Break (after_failures 1) eq_refl eq_refl eq_refl).
Defined.

(** After one failed verification the session is at the head of the loop
    with one failure counted. *)
Lemma blocked_branch_unreachable_witness :
  match run 1 (initial (flagged_transaction "0000" "yes") noon_clock) with
  | Running s w =>
      (0 <= pin_fails s <= 4)%Z /\ card_blocked s = false /\
      ~ In (Say CardPermanentlyBlocked) (stdout w)
  | Exited s w =>
      (0 <= pin_fails s <= 5)%Z /\ ~ In (Say CardPermanentlyBlocked) (stdout w)
  | Crashed w => ~ In (Say CardPermanentlyBlocked) (stdout w)
  end.
Proof.
  apply (blocked_branch_unreachable whole_number sum_left_to_right
           first_occurrences nowhere nowhere).
  exists (flagged_transaction "0000" "yes"), noon_clock, 1%nat. reflexivity.
Defined.

(** A failure after which the holder goes on: nothing is appended, and the
    time and the region are those of the failed transaction. *)
Lemma history_and_last_transaction_witness :
  spending_history
    {| flagged_count := 1; pin_fails := 1; card_blocked := false;
       last_tx_time := Some (noon_clock 0);
       last_region := Some "unknown"%string; spending_history := [] |}
  = spending_history (after_failures 0) /\
  last_tx_time
    {| flagged_count := 1; pin_fails := 1; card_blocked := false;
       last_tx_time := Some (noon_clock 0);
       last_region := Some "unknown"%string; spending_history := [] |}
  = Some (noon_clock 0).
Proof.
  destruct (proj1 (history_and_last_transaction (after_failures 0) 1500
                     (noon_clock 0) None "Groceries / Essentials" 0.5
                     "APPROVED (FLAGGED)" [] (typed ["0000"; "yes"]%string)
                     Continue
                     {| flagged_count := 1; pin_fails := 1; card_blocked := false;
                        last_tx_time := Some (noon_clock 0);
                        last_region := Some "unknown"%string;
                        spending_history := [] |}
                     (after (typed ["0000"; "yes"]%string) []
                        [ Say (VerificationTriggered 0.5 1500);
                          Say VerificationRequired; Say TierPinOnly; Ask EnterPin;
                          Say PinIncorrect;
                          Say (FraudResult 0.5 "DECLINED (Failed Verification)"
                                 [VerificationFailedDeclined]);
                          Ask AnalyzeAnother ]))
              (after (typed ["0000"; "yes"]%string) ["yes"%string]
                 [ Say (VerificationTriggered 0.5 1500); Say VerificationRequired;
                   Say TierPinOnly; Ask EnterPin; Say PinIncorrect ])
              eq_refl eq_refl eq_refl) as (Hhistory & Hmoved & _).
  split; [exact Hhistory | exact (proj1 (Hmoved eq_refl))].
Defined.

(** *** The further theorems at concrete inputs *)

(** One failed verification into a session. *)
Lemma flagged_count_bounded_witness :
  match run 1 (initial (flagged_transaction "0000" "yes") noon_clock) with
  | Running s _ =>
      (0 <= pin_fails s <= flagged_count s)%Z /\
      (flagged_count s <= pin_fails s + 4)%Z /\ (flagged_count s <= 8)%Z
  | Exited s _ => (0 <= pin_fails s <= flagged_count s)%Z /\ (flagged_count s <= 9)%Z
  | Crashed _ => True
  end.
Proof.
  apply (flagged_count_bounded whole_number sum_left_to_right first_occurrences
           nowhere nowhere).
  exists (flagged_transaction "0000" "yes"), noon_clock, 1%nat. reflexivity.
Defined.

(** A session the holder ends after one verified transaction. *)
Lemma frozen_only_after_five_flags_witness :
  match run 1 (initial (flagged_transaction "1234" "no") noon_clock) with
  | Running s _ => card_blocked s = false
  | Exited s _ => card_blocked s = true -> (5 <= flagged_count s)%Z
  | Crashed _ => True
  end.
Proof.
  apply (frozen_only_after_five_flags whole_number sum_left_to_right
           first_occurrences nowhere nowhere).
  exists (flagged_transaction "1234" "no"), noon_clock, 1%nat. reflexivity.
Defined.

(** A declined transaction with a flagged score (0.50) is counted once. *)
Lemma transaction_counts_once_witness :
  (flagged_count initial_session <= 1 <= flagged_count initial_session + 1)%Z /\
  (1 = pin_fails initial_session + 1 \/ 1 = pin_fails initial_session \/ 1 = 0)%Z.
Proof.
  exact (transaction_counts_once whole_number sum_left_to_right first_occurrences
           nowhere nowhere initial_session
           (typed (flagged_transaction "0000" "no")) Break (after_failures 1)
           (after {| stdin := []; clock := noon_clock; ticks := 1; stdout := [] |} []
              [ Say NewTransaction; Ask EnterAmount; Ask EnterLocation;
                Say MerchantTypeMenu; Ask ChooseMerchant;
                Say (VerificationTriggered 0.5 1500);
                Say VerificationRequired; Say TierPinOnly; Ask EnterPin;
                Say PinIncorrect;
                Say (FraudResult 0.5 "DECLINED (Failed Verification)"
                       [ CautionSpendZone; OutsideAlberta; UnknownLocation;
                         MerchantCategory "Groceries / Essentials";
                         LocationMessage "Invalid format. Use: City, Region.";
                         VerificationFailedDeclined ]);
                Ask AnalyzeAnother ])
           eq_refl).
Defined.

(** 3000 dollars at score 0.10: the middle tier; the holder picks the date
    of birth and gives it. *)
Lemma pin_plus_one_sequence_witness :
  run_verification 3000 0.1
    (typed ["1234"; " 2 "; "1990-05-14"; "no"]%string)
  = Ret true
        (after (typed ["1234"; " 2 "; "1990-05-14"; "no"]%string) ["no"%string]
           [ Say VerificationRequired; Say TierPinPlusOne; Ask EnterPin;
             Say ChooseOneOption; Ask SelectOption; Ask EnterDob;
             Say VerificationPassedMsg ]).
Proof.
  exact (proj2 (proj2 (pin_plus_one_sequence 3000 0.1
                         (typed ["1234"; " 2 "; "1990-05-14"; "no"]%string)
                         eq_refl eq_refl))
           "1234"%string " 2 "%string "1990-05-14"%string ["no"%string]
           EnterDob dob_matches BirthdateMismatch eq_refl eq_refl eq_refl).
Defined.

(** A location without a comma is not resolved. *)
Lemma unresolved_location_pays_twice_witness :
  add_location_risk None [] = (0.30%float, [OutsideAlberta]) /\
  add_unknown_location_risk false [] = (0.10%float, [UnknownLocation]).
Proof.
  exact (proj2 (unresolved_location_pays_twice nowhere nowhere "nowhere" [] [])
           eq_refl).
Defined.

(** Five grocery purchases in Alberta. *)
Lemma profile_takes_the_most_frequent_witness :
  In "Groceries / Essentials"%string (map h_merchant five_groceries) /\
  In "ab"%string (map h_region five_groceries).
Proof.
  destruct (profile_takes_the_most_frequent sum_left_to_right first_occurrences
              five_groceries
              {| avg_amount := 40; frequent_merchant := "Groceries / Essentials";
                 avg_hour := 12; frequent_region := "ab" |}
              first_occurrences_In eq_refl)
    as [[Hmerchant _] [Hregion _]].
  split; [exact Hmerchant | exact Hregion].
Defined.

(** 0.65 is a number between 0.50 and 0.80. *)
Lemma decide_bands_witness : decide 0.65 = APPROVED_FLAGGED.
Proof. exact (proj1 (decide_bands 0.65) eq_refl). Defined.

(** 200 dollars at score 0.95: under review, hence the full tier. *)
Lemma decision_sets_the_tier_witness :
  run_verification 200 0.95 = (print VerificationRequired ;; full_verification).
Proof.
  exact (proj1 (decision_sets_the_tier 200 0.95) (or_introl eq_refl)).
Defined.

(** A fifth flagged event at the final decision. *)
Lemma final_decision_freezes_at_five_witness :
  final_decision (after_failures 4) 1500 (noon_clock 0) None
    "Groceries / Essentials" 0.5 "APPROVED (FLAGGED)" [] (typed ["yes"%string])
  = Ret (Break,
         {| flagged_count := 5; pin_fails := 4; card_blocked := true;
            last_tx_time := Some (noon_clock 0);
            last_region := Some "unknown"%string;
            spending_history :=
              [ {| h_amount := 1500; h_merchant := "Groceries / Essentials";
                   h_hour := 12; h_region := "unknown" |} ] |})
        (after (typed ["yes"%string]) ["yes"%string]
           [ Say (FraudResult 0.5 "APPROVED (FLAGGED)" []); Say CardFrozen ]) /\
  after (typed ["yes"%string]) ["yes"%string]
    [ Say (FraudResult 0.5 "APPROVED (FLAGGED)" []); Say CardFrozen ]
  = after (typed ["yes"%string]) (stdin (typed ["yes"%string]))
      [ Say (FraudResult 0.5 "APPROVED (FLAGGED)" []); Say CardFrozen ].
Proof.
  assert (Hrun :
    final_decision (after_failures 4) 1500 (noon_clock 0) None
      "Groceries / Essentials" 0.5 "APPROVED (FLAGGED)" [] (typed ["yes"%string])
    = Ret (Break,
           {| flagged_count := 5; pin_fails := 4; card_blocked := true;
              last_tx_time := Some (noon_clock 0);
              last_region := Some "unknown"%string;
              spending_history :=
                [ {| h_amount := 1500; h_merchant := "Groceries / Essentials";
                     h_hour := 12; h_region := "unknown" |} ] |})
          (after (typed ["yes"%string]) ["yes"%string]
             [ Say (FraudResult 0.5 "APPROVED (FLAGGED)" []); Say CardFrozen ]))
    by reflexivity.
  split; [exact Hrun |].
  exact (proj2 (proj2 (proj1 (final_decision_freezes_at_five _ _ _ _ _ _ _ _ _ _ _ _
                                Hrun)
                         ltac:(cbn; lia)))).
Defined.

(** The second transaction of a session. *)
Lemma behavior_silent_at_first_witness :
  match run 1 (initial (flagged_transaction "1234" "yes") noon_clock) with
  | Running s _ =>
      add_behavioral_risk sum_left_to_right first_occurrences (spending_history s)
        9000 "Electronics / Tech" 0 "on" [] = (0.0%float, [])
  | _ => True
  end.
Proof.
  apply (behavior_silent_at_first whole_number sum_left_to_right first_occurrences
           nowhere nowhere (flagged_transaction "1234" "yes") noon_clock 1).
  lia.
Defined.
